(** * Jingletube: the authentication provider registry ([src/auth/auth_manager.py])

    A shallow embedding of [AuthCredentials], the [AuthProvider] interface with
    its four implementations, and [AuthManager], followed by the properties of
    the credential life cycle.  Two more modules of the repository are
    embedded after it: the development sign-in [DevAuth]
    ([src/auth/dev_auth.py]) and the URL parser [YouTubeParser]
    ([src/youtube/parser.py]).

    Modelling conventions.
    - A Python [dict] is an insertion-ordered list of key/value pairs
      ([Dict.t]); [list(d.keys())] is the list of its keys in that order.
    - Exceptions are values of [exception]; a manager method is a function
      from the state before the call to an [outcome] and the state after it.
    - [AuthCredentials] objects are never assigned to by this module, so they
      are modelled by value.  The one object that is mutated in place is the
      [metadata] dictionary ([credentials.metadata["refreshed_at"] = ...]):
      dictionaries of metadata live in a [Store.t] and a credential refers to
      its dictionary by location, so that two credentials built on one
      dictionary see each other's updates, as in Python.
    - [datetime.utcnow()] is an input of the call: the methods that read the
      clock take its rendering [now] as an argument.
    - The manager tests objects by truth value ([if not provider],
      [if not credentials]).  A provider carries its truth value, since
      [AuthProvider] is a base class meant to be subclassed; a credential is
      an object of the dataclass, which is always true.
    - Calls to [logger] are not modelled. *)

From Stdlib Require Import String Ascii List Bool Arith ZArith Lia.
Import ListNotations.
Open Scope string_scope.

(* ------------------------------------------------------------------ *)
(** ** Python dictionaries with string keys *)

Module Dict.

Definition t (V : Type) : Type := list (string * V).

Definition empty {V : Type} : t V := [].

(** [d.get(k)] *)
Fixpoint get {V : Type} (k : string) (d : t V) : option V :=
  match d with
  | [] => None
  | (k', v) :: d' => if String.eqb k k' then Some v else get k d'
  end.

(** [k in d] *)
Definition contains {V : Type} (k : string) (d : t V) : bool :=
  match get k d with
  | Some _ => true
  | None => false
  end.

(** [d[k] = v]: an existing key keeps its position, a new key goes last. *)
Fixpoint set {V : Type} (k : string) (v : V) (d : t V) : t V :=
  match d with
  | [] => [(k, v)]
  | (k', v') :: d' =>
      if String.eqb k k' then (k', v) :: d' else (k', v') :: set k v d'
  end.

(** The dictionary without the key [k] (every pair that carries it, which on
    a dictionary with unique keys is the one pair). *)
Fixpoint remove {V : Type} (k : string) (d : t V) : t V :=
  match d with
  | [] => []
  | (k', v') :: d' =>
      if String.eqb k k' then remove k d' else (k', v') :: remove k d'
  end.

(** [del d[k]]: [None] stands for the [KeyError] of an absent key. *)
Definition del {V : Type} (k : string) (d : t V) : option (t V) :=
  if contains k d then Some (remove k d) else None.

(** [list(d.keys())] *)
Definition keys {V : Type} (d : t V) : list string := map fst d.

(** A list of pairs is the image of a Python dictionary when no key occurs
    twice. *)
Definition wf {V : Type} (d : t V) : Prop := NoDup (keys d).

End Dict.

(* ------------------------------------------------------------------ *)
(** ** Values *)

(** The part of [typing.Any] that the metadata and configuration
    dictionaries of this module hold. *)
Inductive Any : Type :=
| AnyNone
| AnyBool (b : bool)
| AnyInt (z : Z)
| AnyStr (s : string).

(** Truth value of a [str]: the empty string is false. *)
Definition str_truthy (s : string) : bool := negb (String.eqb s "").

(** Truth value of an [Optional[str]]: [None] and [""] are false. *)
Definition truthy (o : option string) : bool :=
  match o with
  | None => false
  | Some s => str_truthy s
  end.

(** [a and b] on [Optional[str]] operands: [a] when [a] is false, else [b]. *)
Definition py_and (a b : option string) : option string :=
  if truthy a then b else a.

(** Locations of metadata dictionaries. *)
Definition loc : Type := nat.

Module Store.

Definition t : Type := loc -> Dict.t Any.

Definition upd (l : loc) (d : Dict.t Any) (s : t) : t :=
  fun l' => if Nat.eqb l' l then d else s l'.

End Store.

Inductive AuthProviderType : Type :=
| OAUTH2
| BASIC
| API_KEY
| JWT
| CUSTOM.

Module AuthCredentials.

(** [metadata] is never [None]: [__post_init__] replaces an omitted
    dictionary by a new empty one. *)
Record t : Type := mk {
  provider_type : AuthProviderType;
  access_token : option string;
  refresh_token : option string;
  username : option string;
  password : option string;
  api_key : option string;
  expires_in : option Z;
  metadata : loc
}.

(** [AuthCredentials(provider_type, access_token, ..., metadata)] followed by
    [__post_init__]: a credential built with [metadata=None] gets a new empty
    dictionary, allocated at the location [fresh]. *)
Definition __init__
    (provider_type : AuthProviderType)
    (access_token refresh_token username password api_key : option string)
    (expires_in : option Z) (metadata : option loc)
    (fresh : loc) (s : Store.t) : t * Store.t :=
  match metadata with
  | None =>
      (mk provider_type access_token refresh_token username password api_key
          expires_in fresh,
       Store.upd fresh Dict.empty s)
  | Some m =>
      (mk provider_type access_token refresh_token username password api_key
          expires_in m,
       s)
  end.

End AuthCredentials.

(* ------------------------------------------------------------------ *)
(** ** The provider interface and its four implementations *)

Module AuthProvider.

(** The abstract base class: an identifier, a configuration and the four
    abstract methods, with the signatures the class declares.  As in the four
    classes of the source, the three methods annotated [-> bool] read the
    credential (and the store its metadata lives in) and return; only
    [refresh_token], which returns a credential, may update the store.

    [__bool__] is the truth value of the object, which the manager tests
    with [if not provider].  It is true for an object of a class that defines
    neither [__bool__] nor [__len__], as the base class and the four classes
    of the source; a subclass that defines one of them can make it false. *)
Record t : Type := mk {
  provider_id : string;
  config : Dict.t Any;
  authenticate : AuthCredentials.t -> Store.t -> bool;
  refresh_token :
    string -> AuthCredentials.t -> Store.t -> AuthCredentials.t * Store.t;
  revoke_token : AuthCredentials.t -> Store.t -> bool;
  validate_token : AuthCredentials.t -> Store.t -> bool;
  __bool__ : bool
}.

End AuthProvider.

(** In the four classes below the bodies of [authenticate] and
    [refresh_token] sit in a [try] block.  On a credential, reading a field,
    testing its truth value and assigning to a key of a dictionary do not
    raise, so the [except] branches are never entered and are left out. *)

(** [credentials.metadata["refreshed_at"] = str(datetime.utcnow())], the
    statement shared by the two providers that support a refresh. *)
Definition stamp_refreshed_at
    (now : string) (credentials : AuthCredentials.t) (s : Store.t) : Store.t :=
  let m := AuthCredentials.metadata credentials in
  Store.upd m (Dict.set "refreshed_at" (AnyStr now) (s m)) s.

Module OAuth2Provider.

Definition authenticate (credentials : AuthCredentials.t) (_ : Store.t) : bool :=
  if truthy (AuthCredentials.access_token credentials) then true else false.

Definition refresh_token
    (now : string) (credentials : AuthCredentials.t) (s : Store.t)
    : AuthCredentials.t * Store.t :=
  (credentials, stamp_refreshed_at now credentials s).

Definition revoke_token (_ : AuthCredentials.t) (_ : Store.t) : bool := true.

Definition validate_token (credentials : AuthCredentials.t) (_ : Store.t) : bool :=
  if negb (truthy (AuthCredentials.access_token credentials)) then false
  else true.

Definition new (provider_id : string) (config : Dict.t Any) : AuthProvider.t :=
  AuthProvider.mk provider_id config
    authenticate refresh_token revoke_token validate_token true.

End OAuth2Provider.

Module BasicAuthProvider.

Definition authenticate (credentials : AuthCredentials.t) (_ : Store.t) : bool :=
  if truthy (py_and (AuthCredentials.username credentials)
                    (AuthCredentials.password credentials))
  then true else false.

Definition refresh_token
    (_ : string) (credentials : AuthCredentials.t) (s : Store.t)
    : AuthCredentials.t * Store.t :=
  (credentials, s).

Definition revoke_token (_ : AuthCredentials.t) (_ : Store.t) : bool := true.

Definition validate_token (credentials : AuthCredentials.t) (_ : Store.t) : bool :=
  truthy (py_and (AuthCredentials.username credentials)
                 (AuthCredentials.password credentials)).

Definition new (provider_id : string) (config : Dict.t Any) : AuthProvider.t :=
  AuthProvider.mk provider_id config
    authenticate refresh_token revoke_token validate_token true.

End BasicAuthProvider.

Module APIKeyProvider.

Definition authenticate (credentials : AuthCredentials.t) (_ : Store.t) : bool :=
  if truthy (AuthCredentials.api_key credentials) then true else false.

Definition refresh_token
    (_ : string) (credentials : AuthCredentials.t) (s : Store.t)
    : AuthCredentials.t * Store.t :=
  (credentials, s).

Definition revoke_token (_ : AuthCredentials.t) (_ : Store.t) : bool := true.

Definition validate_token (credentials : AuthCredentials.t) (_ : Store.t) : bool :=
  truthy (AuthCredentials.api_key credentials).

Definition new (provider_id : string) (config : Dict.t Any) : AuthProvider.t :=
  AuthProvider.mk provider_id config
    authenticate refresh_token revoke_token validate_token true.

End APIKeyProvider.

Module JWTProvider.

Definition authenticate (credentials : AuthCredentials.t) (_ : Store.t) : bool :=
  if truthy (AuthCredentials.access_token credentials) then true else false.

Definition refresh_token
    (now : string) (credentials : AuthCredentials.t) (s : Store.t)
    : AuthCredentials.t * Store.t :=
  (credentials, stamp_refreshed_at now credentials s).

Definition revoke_token (_ : AuthCredentials.t) (_ : Store.t) : bool := true.

Definition validate_token (credentials : AuthCredentials.t) (_ : Store.t) : bool :=
  if negb (truthy (AuthCredentials.access_token credentials)) then false
  else true.

Definition new (provider_id : string) (config : Dict.t Any) : AuthProvider.t :=
  AuthProvider.mk provider_id config
    authenticate refresh_token revoke_token validate_token true.

End JWTProvider.

(* ------------------------------------------------------------------ *)
(** ** Exceptions and the monad of manager methods *)

Inductive exception : Type :=
| ValueError (msg : string)
| KeyError (key : string).

(** The class of an exception object, which an [except] clause matches on. *)
Inductive exception_class : Type :=
| ValueError_class
| KeyError_class.

Definition class_of (e : exception) : exception_class :=
  match e with
  | ValueError _ => ValueError_class
  | KeyError _ => KeyError_class
  end.

Inductive outcome (A : Type) : Type :=
| Return (a : A)
| Raise (e : exception).

Arguments Return {A} a.
Arguments Raise {A} e.

Definition raised {A : Type} (o : outcome A) : option exception :=
  match o with
  | Return _ => None
  | Raise e => Some e
  end.

Module AuthManager.

Record t : Type := mk {
  _providers : Dict.t AuthProvider.t;
  _credentials : Dict.t AuthCredentials.t
}.

(** What a manager method runs in: the manager object and the store of
    metadata dictionaries. *)
Record State : Type := mkState {
  self : t;
  store : Store.t
}.

Definition M (A : Type) : Type := State -> outcome A * State.

Definition ret {A : Type} (a : A) : M A := fun st => (Return a, st).

Definition raise {A : Type} (e : exception) : M A := fun st => (Raise e, st).

Definition bind {A B : Type} (c : M A) (k : A -> M B) : M B :=
  fun st =>
    match c st with
    | (Return a, st') => k a st'
    | (Raise e, st') => (Raise e, st')
    end.

Declare Scope manager_scope.
Delimit Scope manager_scope with manager.

Notation "x <- c ;; k" := (bind c (fun x => k))
  (at level 61, c at next level, right associativity) : manager_scope.
Notation "c ;; k" := (bind c (fun _ => k))
  (at level 61, right associativity) : manager_scope.

(** Reading through [self] and assigning to its two attributes. *)
Definition reads {A : Type} (f : State -> A) : M A := fun st => (Return (f st), st).

Definition set_providers (d : Dict.t AuthProvider.t) : M unit :=
  fun st => (Return tt, mkState (mk d (_credentials (self st))) (store st)).

Definition set_credentials (d : Dict.t AuthCredentials.t) : M unit :=
  fun st => (Return tt, mkState (mk (_providers (self st)) d) (store st)).

Definition set_store (s : Store.t) : M unit :=
  fun st => (Return tt, mkState (self st) s).

(** [del d[k]] as a statement: [KeyError] when [k] is absent. *)
Definition del_item {V : Type} (k : string) (d : Dict.t V) : M (Dict.t V) :=
  match Dict.del k d with
  | Some d' => ret d'
  | None => raise (KeyError k)
  end.

(** [AuthManager()] *)
Definition __init__ : t := mk Dict.empty Dict.empty.

Open Scope manager_scope.

Definition get_provider (provider_id : string) (st : State)
    : option AuthProvider.t :=
  Dict.get provider_id (_providers (self st)).

Definition list_providers (st : State) : list string :=
  Dict.keys (_providers (self st)).

Definition get_credentials (provider_id : string) (st : State)
    : option AuthCredentials.t :=
  Dict.get provider_id (_credentials (self st)).

Definition register_provider (provider : AuthProvider.t) : M unit :=
  providers <- reads (fun st => _providers (self st)) ;;
  if Dict.contains (AuthProvider.provider_id provider) providers then
    raise (ValueError ("Provider '" ++ AuthProvider.provider_id provider
                         ++ "' already registered"))
  else
    set_providers
      (Dict.set (AuthProvider.provider_id provider) provider providers).

Definition unregister_provider (provider_id : string) : M bool :=
  providers <- reads (fun st => _providers (self st)) ;;
  if Dict.contains provider_id providers then
    providers' <- del_item provider_id providers ;;
    set_providers providers' ;;
    ret true
  else
    ret false.

(** An [AuthCredentials] object defines neither [__bool__] nor [__len__]:
    [not credentials] holds exactly for [None].  [not provider] holds for
    [None] and for a provider whose truth value is false. *)
Definition authenticate
    (provider_id : string) (credentials : AuthCredentials.t) : M bool :=
  provider <- reads (get_provider provider_id) ;;
  match provider with
  | None => raise (ValueError ("Provider '" ++ provider_id ++ "' not found"))
  | Some provider =>
      if negb (AuthProvider.__bool__ provider) then
        raise (ValueError ("Provider '" ++ provider_id ++ "' not found"))
      else
        ok <- reads (fun st =>
                       AuthProvider.authenticate provider credentials (store st)) ;;
        if ok then
          creds <- reads (fun st => _credentials (self st)) ;;
          set_credentials (Dict.set provider_id credentials creds) ;;
          ret true
        else
          ret false
  end.

Definition validate_credentials (provider_id : string) (st : State) : bool :=
  match Dict.get provider_id (_credentials (self st)) with
  | None => false
  | Some credentials =>
      match get_provider provider_id st with
      | None => false
      | Some provider =>
          if negb (AuthProvider.__bool__ provider) then false
          else AuthProvider.validate_token provider credentials (store st)
      end
  end.

Definition refresh_credentials (now : string) (provider_id : string) : M bool :=
  credentials <- reads (get_credentials provider_id) ;;
  match credentials with
  | None =>
      raise (ValueError ("No credentials found for provider '"
                           ++ provider_id ++ "'"))
  | Some credentials =>
      provider <- reads (get_provider provider_id) ;;
      match provider with
      | None =>
          raise (ValueError ("Provider '" ++ provider_id ++ "' not found"))
      | Some provider =>
          if negb (AuthProvider.__bool__ provider) then
            raise (ValueError ("Provider '" ++ provider_id ++ "' not found"))
          else
            s <- reads store ;;
            let (updated_credentials, s') :=
              AuthProvider.refresh_token provider now credentials s in
            set_store s' ;;
            creds <- reads (fun st => _credentials (self st)) ;;
            set_credentials (Dict.set provider_id updated_credentials creds) ;;
            ret true
      end
  end.

Definition revoke_credentials (provider_id : string) : M bool :=
  credentials <- reads (get_credentials provider_id) ;;
  match credentials with
  | None => ret false
  | Some credentials =>
      provider <- reads (get_provider provider_id) ;;
      match provider with
      | None => ret false
      | Some provider =>
          if negb (AuthProvider.__bool__ provider) then ret false
          else
            ok <- reads (fun st =>
                           AuthProvider.revoke_token provider credentials
                             (store st)) ;;
            if ok then
              creds <- reads (fun st => _credentials (self st)) ;;
              creds' <- del_item provider_id creds ;;
              set_credentials creds' ;;
              ret true
            else
              ret false
      end
  end.

Definition clear_all_credentials : M unit :=
  set_credentials Dict.empty.

(** The loop [for provider_id in ids: status[provider_id] = validate(provider_id)]
    run on the dictionary [status]. *)
Definition status_loop
    (validate : string -> bool) (ids : list string) (status : Dict.t bool)
    : Dict.t bool :=
  fold_left
    (fun status provider_id =>
       Dict.set provider_id (validate provider_id) status)
    ids status.

Definition get_authentication_status (st : State) : Dict.t bool :=
  status_loop (fun provider_id => validate_credentials provider_id st)
    (Dict.keys (_providers (self st)))
    Dict.empty.

Close Scope manager_scope.

End AuthManager.

(* ------------------------------------------------------------------ *)
(** ** Vocabulary of the specification *)

(** The specification names three errors.  In the source each of them is a
    [ValueError], told apart by its message only. *)
Definition DuplicateProviderError (provider_id : string) : exception :=
  ValueError ("Provider '" ++ provider_id ++ "' already registered").

Definition ProviderNotFoundError (provider_id : string) : exception :=
  ValueError ("Provider '" ++ provider_id ++ "' not found").

Definition CredentialsNotFoundError (provider_id : string) : exception :=
  ValueError ("No credentials found for provider '" ++ provider_id ++ "'").

(** A field is present when it is set to a string that is not empty. *)
Definition field_present (o : option string) : Prop :=
  exists s, o = Some s /\ s <> "".

(** The four provider variants of the specification, the class of the source
    each one stands for, and the fields each one requires. *)
Inductive variant : Type :=
| OAuth2_style
| Basic_style
| API_key_style
| JWT_style.

Definition provider_of
    (v : variant) (provider_id : string) (config : Dict.t Any)
    : AuthProvider.t :=
  match v with
  | OAuth2_style => OAuth2Provider.new provider_id config
  | Basic_style => BasicAuthProvider.new provider_id config
  | API_key_style => APIKeyProvider.new provider_id config
  | JWT_style => JWTProvider.new provider_id config
  end.

Definition required_fields_present
    (v : variant) (c : AuthCredentials.t) : Prop :=
  match v with
  | OAuth2_style | JWT_style => field_present (AuthCredentials.access_token c)
  | Basic_style =>
      field_present (AuthCredentials.username c) /\
      field_present (AuthCredentials.password c)
  | API_key_style => field_present (AuthCredentials.api_key c)
  end.

(** A required field is missing when it was left at [None]. *)
Definition required_field_missing
    (v : variant) (c : AuthCredentials.t) : Prop :=
  match v with
  | OAuth2_style | JWT_style => AuthCredentials.access_token c = None
  | Basic_style =>
      AuthCredentials.username c = None \/ AuthCredentials.password c = None
  | API_key_style => AuthCredentials.api_key c = None
  end.

(** The provider that the test [if not provider] lets through: the one
    registered under the id, when there is one and its truth value is true. *)
Definition usable_provider (provider_id : string) (st : AuthManager.State)
    : option AuthProvider.t :=
  match AuthManager.get_provider provider_id st with
  | Some p => if AuthProvider.__bool__ p then Some p else None
  | None => None
  end.

(** A state in which both dictionaries of the manager have unique keys. *)
Definition wf_state (st : AuthManager.State) : Prop :=
  Dict.wf (AuthManager._providers (AuthManager.self st)) /\
  Dict.wf (AuthManager._credentials (AuthManager.self st)).

(** Unfolds a manager method down to the state it returns. *)
Ltac run_manager :=
  cbv [AuthManager.register_provider AuthManager.unregister_provider
       AuthManager.authenticate AuthManager.refresh_credentials
       AuthManager.revoke_credentials AuthManager.clear_all_credentials
       AuthManager.bind AuthManager.ret AuthManager.raise AuthManager.reads
       AuthManager.set_providers AuthManager.set_credentials
       AuthManager.set_store AuthManager.del_item
       AuthManager.get_provider AuthManager.get_credentials].

(* ------------------------------------------------------------------ *)
(** ** Objects used to exercise the statements *)

Module Examples.

Definition empty_store : Store.t := fun _ => Dict.empty.

Definition fresh : AuthManager.State :=
  AuthManager.mkState AuthManager.__init__ empty_store.

(** [AuthCredentials(AuthProviderType.OAUTH2, access_token="tok-1")] *)
Definition token_credentials : AuthCredentials.t :=
  AuthCredentials.mk OAUTH2 (Some "tok-1") None None None None None 0.

(** [AuthCredentials(AuthProviderType.BASIC, username="u", password="p")] *)
Definition basic_credentials : AuthCredentials.t :=
  AuthCredentials.mk BASIC None None (Some "u") (Some "p") None None 1.

(** [AuthCredentials(AuthProviderType.BASIC, username="u")] *)
Definition username_only : AuthCredentials.t :=
  AuthCredentials.mk BASIC None None (Some "u") None None None 2.

(** [AuthCredentials(AuthProviderType.API_KEY, api_key="k")] *)
Definition key_credentials : AuthCredentials.t :=
  AuthCredentials.mk API_KEY None None None None (Some "k") None 3.

(** [AuthCredentials(AuthProviderType.OAUTH2, access_token="")] *)
Definition empty_token : AuthCredentials.t :=
  AuthCredentials.mk OAUTH2 (Some "") None None None None None 4.

Definition hf : AuthProvider.t := OAuth2Provider.new "hf" Dict.empty.
Definition b : AuthProvider.t := BasicAuthProvider.new "b" Dict.empty.
Definition k : AuthProvider.t := APIKeyProvider.new "k" Dict.empty.
Definition j : AuthProvider.t := JWTProvider.new "j" Dict.empty.




(** The state after [register_provider(p)] and [authenticate(id, c)]. *)
Definition signed_in (p : AuthProvider.t) (c : AuthCredentials.t)
    : AuthManager.State :=
  snd (AuthManager.authenticate (AuthProvider.provider_id p) c
         (snd (AuthManager.register_provider p fresh))).

(** The state with a provider registered and nothing stored. *)
Definition registered (p : AuthProvider.t) : AuthManager.State :=
  snd (AuthManager.register_provider p fresh).


End Examples.

(* ------------------------------------------------------------------ *)
(** ** Sequences of calls on a manager *)

(** A call of one of the methods of [AuthManager] that assign to its
    attributes, with its arguments. *)
Inductive call : Type :=
| Call_register_provider (provider : AuthProvider.t)
| Call_unregister_provider (provider_id : string)
| Call_authenticate (provider_id : string) (credentials : AuthCredentials.t)
| Call_refresh_credentials (now : string) (provider_id : string)
| Call_revoke_credentials (provider_id : string)
| Call_clear_all_credentials.

(** The state a call leaves behind, whether it returns or raises. *)
Definition exec (c : call) (st : AuthManager.State) : AuthManager.State :=
  match c with
  | Call_register_provider p => snd (AuthManager.register_provider p st)
  | Call_unregister_provider id => snd (AuthManager.unregister_provider id st)
  | Call_authenticate id cr => snd (AuthManager.authenticate id cr st)
  | Call_refresh_credentials now id =>
      snd (AuthManager.refresh_credentials now id st)
  | Call_revoke_credentials id => snd (AuthManager.revoke_credentials id st)
  | Call_clear_all_credentials => snd (AuthManager.clear_all_credentials st)
  end.

(** The calls of a list, made one after the other on the same manager. *)
Definition run (cs : list call) (st : AuthManager.State) : AuthManager.State :=
  fold_left (fun st c => exec c st) cs st.

Definition is_unregister (c : call) : bool :=
  match c with
  | Call_unregister_provider _ => true
  | _ => false
  end.

(** Every stored credential has a registered provider. *)
Definition covered (st : AuthManager.State) : Prop :=
  forall id c,
    AuthManager.get_credentials id st = Some c ->
    exists p, AuthManager.get_provider id st = Some p.


(* ------------------------------------------------------------------ *)
(** ** The development sign-in ([src/auth/dev_auth.py]) *)

Module DevAuth.

(** A naive [datetime] is the number of microseconds since
    [datetime.min], 0001-01-01 00:00:00; the values of the class are those
    below 10000-01-01 00:00:00, which is [datetime.max] plus one microsecond. *)
Definition datetime : Type := Z.

Definition hour_us : Z := 3600000000.
Definition day_us : Z := 86400000000.

(** [datetime.max.toordinal()] *)
Definition MAXORDINAL : Z := 3652059.

Definition datetime_in_range (t : Z) : bool :=
  ((0 <=? t) && (t <? MAXORDINAL * day_us))%Z.

(** Neither [timedelta(...)] nor [datetime + timedelta] is inside a [try]
    block in [is_token_valid]: their [OverflowError] leaves the method. *)
Inductive result (A : Type) : Type :=
| Ok (a : A)
| OverflowError.

Arguments Ok {A} a.
Arguments OverflowError {A}.

(** [timedelta(hours=h)], in microseconds: the number of whole days of a
    [timedelta] has a magnitude of at most 999999999. *)
Definition timedelta_hours (h : Z) : result Z :=
  let us := (h * hour_us)%Z in
  if (Z.abs (us / day_us) <=? 999999999)%Z then Ok us else OverflowError.

(** [t + d] *)
Definition datetime_add (t : datetime) (d : Z) : result datetime :=
  if datetime_in_range (t + d) then Ok (t + d)%Z else OverflowError.

Definition DEFAULT_DEV_USER : string := "dev_user".
Definition DEFAULT_DEV_PASSWORD : string := "dev_password".
Definition DEFAULT_DEV_TOKEN : string := "dev_token_12345".
Definition DEFAULT_TOKEN_EXPIRY_HOURS : Z := 24.

Record t : Type := mk {
  username : string;
  password : string;
  token_expiry_hours : Z;
  debug : bool;
  token : option string;
  token_created_at : option datetime;
  is_authenticated : bool
}.

(** [x or default] with [x : Optional[str]] *)
Definition or_default (x : option string) (default : string) : string :=
  match x with
  | Some s => if str_truthy s then s else default
  | None => default
  end.

(** [DevAuth(username, password, token_expiry_hours, debug)]; the last two
    arguments default to [DEFAULT_TOKEN_EXPIRY_HOURS] and [True]. *)
Definition __init__
    (username password : option string) (token_expiry_hours : Z) (debug : bool)
    : t :=
  mk (or_default username DEFAULT_DEV_USER)
     (or_default password DEFAULT_DEV_PASSWORD)
     token_expiry_hours debug None None false.

(** The methods that assign to [self] return their value and the object
    after the call; [now] is what [datetime.utcnow()] returns in the call. *)
Definition authenticate (now : datetime) (self : t) : bool * t :=
  (true,
   mk (username self) (password self) (token_expiry_hours self) (debug self)
      (Some DEFAULT_DEV_TOKEN) (Some now) true).

(** A [datetime] object is true, so [not self.token_created_at] holds for
    [None] only. *)
Definition is_token_valid (now : datetime) (self : t) : result bool :=
  if negb (is_authenticated self) || negb (truthy (token self)) then Ok false
  else
    match token_created_at self with
    | None => Ok false
    | Some created =>
        match timedelta_hours (token_expiry_hours self) with
        | OverflowError => OverflowError
        | Ok d =>
            match datetime_add created d with
            | OverflowError => OverflowError
            | Ok expiry_time => Ok (now <? expiry_time)%Z
            end
        end
    end.

Definition get_token (now : datetime) (self : t) : result (option string) :=
  match is_token_valid now self with
  | OverflowError => OverflowError
  | Ok true => Ok (token self)
  | Ok false => Ok None
  end.

Definition refresh_token (now : datetime) (self : t) : bool * t :=
  if negb (is_authenticated self) then (false, self)
  else
    (true,
     mk (username self) (password self) (token_expiry_hours self) (debug self)
        (token self) (Some now) (is_authenticated self)).

Definition logout (self : t) : bool * t :=
  (true,
   mk (username self) (password self) (token_expiry_hours self) (debug self)
      None None false).

Definition get_auth_headers (now : datetime) (self : t)
    : result (option (Dict.t string)) :=
  match get_token now self with
  | OverflowError => OverflowError
  | Ok tok =>
      if truthy tok then
        match tok with
        | Some tk =>
            Ok (Some [("Authorization", "Bearer " ++ tk); ("X-Dev-Auth", "true")])
        | None => Ok None
        end
      else Ok None
  end.

(** A call of a method that assigns to [self], and sequences of them. *)
Inductive call : Type :=
| Call_authenticate (now : datetime)
| Call_refresh_token (now : datetime)
| Call_logout.

Definition exec (c : call) (self : t) : t :=
  match c with
  | Call_authenticate now => snd (authenticate now self)
  | Call_refresh_token now => snd (refresh_token now self)
  | Call_logout => snd (logout self)
  end.

Definition run (cs : list call) (self : t) : t :=
  fold_left (fun self c => exec c self) cs self.

End DevAuth.

(* ------------------------------------------------------------------ *)
(** ** The YouTube URL parser ([src/youtube/parser.py]) *)

Module YouTubeParser.

(** A [str] is the sequence of its characters; a character is its code
    point, below 256. *)

Definition code_between (lo hi : nat) (c : ascii) : bool :=
  (lo <=? nat_of_ascii c)%nat && (nat_of_ascii c <=? hi)%nat.

(** [c.isspace()]: tab to carriage return, the four separators 28 to 31, the
    space, NEL and the no-break space. *)
Definition isspace (c : ascii) : bool :=
  code_between 9 13 c || code_between 28 32 c
  || code_between 133 133 c || code_between 160 160 c.

Fixpoint lstrip (s : string) : string :=
  match s with
  | EmptyString => EmptyString
  | String c s' => if isspace c then lstrip s' else s
  end.

Fixpoint rstrip (s : string) : string :=
  match s with
  | EmptyString => EmptyString
  | String c s' =>
      match rstrip s' with
      | EmptyString => if isspace c then EmptyString else String c EmptyString
      | r => String c r
      end
  end.

(** [s.strip()] *)
Definition strip (s : string) : string := rstrip (lstrip s).

(** *** The fragment of [re] that [PATTERNS] is written in *)

Inductive regex : Type :=
| Lit (l : string)                 (* literal text, escapes resolved *)
| Class (p : ascii -> bool)        (* [...] *)
| Seq (r1 r2 : regex)              (* r1r2 *)
| Opt (r : regex)                  (* (?:r)? *)
| DotStar                          (* .* *)
| Repeat (n : nat) (r : regex)     (* r{n} *)
| Group (r : regex)                (* (r), the group 1 *)
| Bol                              (* ^ *)
| Eol.                             (* $ *)

(** Where a match attempt stands: the index reached, the text that is left,
    and what group 1 holds. *)
Record mstate : Type := mkM {
  pos : nat;
  rest : string;
  group1 : option string
}.

Fixpoint strip_prefix (l s : string) : option string :=
  match l with
  | EmptyString => Some s
  | String a l' =>
      match s with
      | String b s' => if Ascii.eqb a b then strip_prefix l' s' else None
      | EmptyString => None
      end
  end.

Definition newline : ascii := "010"%char.

(** [.*]: every number of characters up to the end of the line, the
    longest first. *)
Fixpoint dotstar (p : nat) (s : string) (g : option string) : list mstate :=
  match s with
  | EmptyString => [mkM p s g]
  | String c s' =>
      if Ascii.eqb c newline then [mkM p s g]
      else (dotstar (S p) s' g ++ [mkM p s g])%list
  end.

(** The ways [r] matches from [st], in the order in which the backtracking
    matcher of [re] tries them: the first one is the match it reports. *)
Fixpoint run_regex (r : regex) (st : mstate) : list mstate :=
  match r with
  | Lit l =>
      match strip_prefix l (rest st) with
      | Some s' => [mkM (pos st + String.length l) s' (group1 st)]
      | None => []
      end
  | Class p =>
      match rest st with
      | String c s' => if p c then [mkM (S (pos st)) s' (group1 st)] else []
      | EmptyString => []
      end
  | Seq r1 r2 => flat_map (run_regex r2) (run_regex r1 st)
  | Opt r1 => (run_regex r1 st ++ [st])%list
  | DotStar => dotstar (pos st) (rest st) (group1 st)
  | Repeat n r1 =>
      (fix rep (n : nat) (st : mstate) : list mstate :=
         match n with
         | O => [st]
         | S n' => flat_map (rep n') (run_regex r1 st)
         end) n st
  | Group r1 =>
      map (fun st' =>
             mkM (pos st') (rest st')
                 (Some (substring 0 (pos st' - pos st) (rest st))))
          (run_regex r1 st)
  | Bol => if (pos st =? 0)%nat then [st] else []
  | Eol =>
      match rest st with
      | EmptyString => [st]
      | String c EmptyString => if Ascii.eqb c newline then [st] else []
      | _ => []
      end
  end.

(** [re.search(r, s)]: the first match at the leftmost index that has one. *)
Fixpoint search_from (r : regex) (p : nat) (s : string) : option mstate :=
  match run_regex r (mkM p s None) with
  | st :: _ => Some st
  | [] =>
      match s with
      | EmptyString => None
      | String _ s' => search_from r (S p) s'
      end
  end.

Definition re_search (r : regex) (s : string) : option mstate :=
  search_from r 0 s.

(** [re.match(r, s)] *)
Definition re_match (r : regex) (s : string) : option mstate :=
  hd_error (run_regex r (mkM 0 s None)).

(** [[a-zA-Z0-9_-]] *)
Definition id_char (c : ascii) : bool :=
  code_between 97 122 c || code_between 65 90 c || code_between 48 57 c
  || Ascii.eqb c "_"%char || Ascii.eqb c "-"%char.

(** [([a-zA-Z0-9_-]{11})] *)
Definition id_group : regex := Group (Repeat 11 (Class id_char)).

(** [(?:https?://)?(?:www\.)?] *)
Definition url_head (r : regex) : regex :=
  Seq (Opt (Seq (Lit "http") (Seq (Opt (Lit "s")) (Lit "://"))))
      (Seq (Opt (Lit "www.")) r).

Definition PATTERNS : Dict.t regex :=
  [ ("youtube_standard",
     (* (?:https?://)?(?:www\.)?youtube\.com/watch\?.*v=([a-zA-Z0-9_-]{11}) *)
     url_head (Seq (Lit "youtube.com/watch?")
                   (Seq DotStar (Seq (Lit "v=") id_group))));
    ("youtube_short",
     (* (?:https?://)?(?:www\.)?youtu\.be/([a-zA-Z0-9_-]{11}) *)
     url_head (Seq (Lit "youtu.be/") id_group));
    ("youtube_embed",
     (* (?:https?://)?(?:www\.)?youtube\.com/embed/([a-zA-Z0-9_-]{11}) *)
     url_head (Seq (Lit "youtube.com/embed/") id_group));
    ("youtube_nocookie",
     (* (?:https?://)?(?:www\.)?youtube-nocookie\.com/embed/([a-zA-Z0-9_-]{11}) *)
     url_head (Seq (Lit "youtube-nocookie.com/embed/") id_group));
    ("video_id_only",
     (* ^([a-zA-Z0-9_-]{11})$ *)
     Seq Bol (Seq id_group Eol)) ].

Definition BASE_URLS : Dict.t string :=
  [ ("video", "https://www.youtube.com/watch?v=");
    ("short", "https://youtu.be/");
    ("embed", "https://www.youtube.com/embed/");
    ("nocookie", "https://www.youtube-nocookie.com/embed/") ].

Definition THUMBNAIL_URLS : Dict.t string :=
  [ ("default", "https://img.youtube.com/vi/{video_id}/default.jpg");
    ("mqdefault", "https://img.youtube.com/vi/{video_id}/mqdefault.jpg");
    ("hqdefault", "https://img.youtube.com/vi/{video_id}/hqdefault.jpg");
    ("sddefault", "https://img.youtube.com/vi/{video_id}/sddefault.jpg");
    ("maxresdefault", "https://img.youtube.com/vi/{video_id}/maxresdefault.jpg") ].

(** [template.format(video_id=v)] on a template whose only braces are those
    of the field [{video_id}]: [skip] counts the characters of the field
    that are still to be passed over. *)
Fixpoint format_from (skip : nat) (template v : string) : string :=
  match template with
  | EmptyString => EmptyString
  | String c t' =>
      match skip with
      | S k => format_from k t' v
      | O =>
          match strip_prefix "{video_id}" template with
          | Some _ => v ++ format_from 9 t' v
          | None => String c (format_from 0 t' v)
          end
      end
  end.

Definition format (template v : string) : string := format_from 0 template v.

(** The loop [for pattern_name, pattern in cls.PATTERNS.items()]. *)
Fixpoint first_match (patterns : Dict.t regex) (s : string) : option string :=
  match patterns with
  | [] => None
  | (_, pattern) :: patterns' =>
      match re_search pattern s with
      | Some m => group1 m
      | None => first_match patterns' s
      end
  end.

Definition extract_video_id (url_or_id : string) : option string :=
  if negb (str_truthy url_or_id) then None
  else first_match PATTERNS (strip url_or_id).

Definition is_valid_video_id (video_id : string) : bool :=
  if negb (str_truthy video_id) then false
  else
    match Dict.get "video_id_only" PATTERNS with
    | Some pattern =>
        match re_match pattern video_id with
        | Some _ => true
        | None => false
        end
    | None => false
    end.

Definition generate_url (video_id url_type : string) : option string :=
  if negb (is_valid_video_id video_id) then None
  else
    match Dict.get url_type BASE_URLS with
    | None => None
    | Some base => Some (base ++ video_id)
    end.

Definition generate_thumbnail_url (video_id quality : string) : option string :=
  if negb (is_valid_video_id video_id) then None
  else
    match Dict.get quality THUMBNAIL_URLS with
    | None => None
    | Some url_template => Some (format url_template video_id)
    end.

Definition get_all_thumbnail_urls (video_id : string) : option (Dict.t string) :=
  if negb (is_valid_video_id video_id) then None
  else
    Some (map (fun item => (fst item, format (snd item) video_id))
              THUMBNAIL_URLS).

(** The values of the dictionary that [parse_url] returns. *)
Inductive value : Type :=
| VNone
| VStr (s : string)
| VDict (d : Dict.t string).

Definition of_optional_str (o : option string) : value :=
  match o with
  | Some s => VStr s
  | None => VNone
  end.

Definition of_optional_dict (o : option (Dict.t string)) : value :=
  match o with
  | Some d => VDict d
  | None => VNone
  end.

Definition parse_url (url : string) : option (Dict.t value) :=
  match extract_video_id url with
  | None => None
  | Some video_id =>
      if negb (str_truthy video_id) then None
      else
        Some [ ("video_id", VStr video_id);
               ("video_url", of_optional_str (generate_url video_id "video"));
               ("short_url", of_optional_str (generate_url video_id "short"));
               ("embed_url", of_optional_str (generate_url video_id "embed"));
               ("nocookie_url",
                of_optional_str (generate_url video_id "nocookie"));
               ("thumbnail_url",
                of_optional_str (generate_thumbnail_url video_id "hqdefault"));
               ("all_thumbnails",
                of_optional_dict (get_all_thumbnail_urls video_id)) ]
  end.

End YouTubeParser.

(** Words for the statements about the parser. *)

(** Eleven characters of [[a-zA-Z0-9_-]]. *)
Definition is_video_id (v : string) : bool :=
  (String.length v =? 11)%nat
  && forallb YouTubeParser.id_char (list_ascii_of_string v).

Definition all_space (s : string) : bool :=
  forallb YouTubeParser.isspace (list_ascii_of_string s).

Fixpoint has_char (c : ascii) (s : string) : bool :=
  match s with
  | EmptyString => false
  | String b s' => Ascii.eqb c b || has_char c s'
  end.

(** The match states whose remaining text does not contain [c]. *)
Definition clean (c : ascii) (st : YouTubeParser.mstate) : Prop :=
  has_char c (YouTubeParser.rest st) = false.

(** What is left of [s] after [n] characters of the class [p], if [s] starts
    with as many. *)
Fixpoint take_class (p : ascii -> bool) (n : nat) (s : string) : option string :=
  match n with
  | O => Some s
  | S n' =>
      match s with
      | String c s' => if p c then take_class p n' s' else None
      | EmptyString => None
      end
  end.

(* ------------------------------------------------------------------ *)
(** ** Dictionary lemmas *)

Section DictFacts.

Context {V : Type}.
Implicit Types (k : string) (v : V) (d : Dict.t V).

Lemma get_set_same k v d : Dict.get k (Dict.set k v d) = Some v.
Proof.
  induction d as [|[k' v'] d IH]; simpl.
  - now rewrite String.eqb_refl.
  - destruct (String.eqb k k') eqn:E; simpl; rewrite E; auto.
Qed.

Lemma get_set_other k k' v d :
  k <> k' -> Dict.get k' (Dict.set k v d) = Dict.get k' d.
Proof.
  intros N. induction d as [|[k0 v0] d IH]; simpl.
  - destruct (String.eqb k' k) eqn:E; auto.
    apply String.eqb_eq in E. congruence.
  - destruct (String.eqb k k0) eqn:E; simpl.
    + apply String.eqb_eq in E. subst k0.
      destruct (String.eqb k' k) eqn:E'; auto.
      apply String.eqb_eq in E'. congruence.
    + now rewrite IH.
Qed.

Lemma set_get_id k v d : Dict.get k d = Some v -> Dict.set k v d = d.
Proof.
  induction d as [|[k' v'] d IH]; simpl; [discriminate|].
  destruct (String.eqb k k') eqn:E; intros H.
  - now inversion H.
  - now rewrite IH.
Qed.

Lemma get_remove_same k d : Dict.get k (Dict.remove k d) = None.
Proof.
  induction d as [|[k' v'] d IH]; simpl; auto.
  destruct (String.eqb k k') eqn:E; simpl; auto.
  now rewrite E.
Qed.

Lemma get_remove_other k k' d :
  k <> k' -> Dict.get k' (Dict.remove k d) = Dict.get k' d.
Proof.
  intros N. induction d as [|[k0 v0] d IH]; simpl; auto.
  destruct (String.eqb k k0) eqn:E; simpl.
  - apply String.eqb_eq in E. subst k0.
    destruct (String.eqb k' k) eqn:E'; auto.
    apply String.eqb_eq in E'. congruence.
  - now rewrite IH.
Qed.

Lemma contains_get k d :
  Dict.contains k d = true <-> exists v, Dict.get k d = Some v.
Proof.
  unfold Dict.contains. destruct (Dict.get k d) as [v|].
  - split; eauto.
  - split; [discriminate | intros [v H]; discriminate].
Qed.

Lemma contains_false_get k d :
  Dict.contains k d = false <-> Dict.get k d = None.
Proof.
  unfold Dict.contains. destruct (Dict.get k d); split; congruence.
Qed.

Lemma in_keys_get k d :
  In k (Dict.keys d) <-> exists v, Dict.get k d = Some v.
Proof.
  induction d as [|[k' v'] d IH]; simpl.
  - split; [tauto | intros [v H]; discriminate].
  - destruct (String.eqb k k') eqn:E.
    + apply String.eqb_eq in E. subst. split; eauto.
    + apply String.eqb_neq in E. rewrite <- IH. intuition congruence.
Qed.

Lemma in_keys_set x k v d :
  In x (Dict.keys (Dict.set k v d)) <-> x = k \/ In x (Dict.keys d).
Proof.
  induction d as [|[k' v'] d IH]; simpl.
  - intuition.
  - destruct (String.eqb k k') eqn:E; simpl.
    + apply String.eqb_eq in E. subst. intuition.
    + rewrite IH. intuition.
Qed.

Lemma in_keys_remove x k d :
  In x (Dict.keys (Dict.remove k d)) <-> x <> k /\ In x (Dict.keys d).
Proof.
  induction d as [|[k' v'] d IH]; simpl.
  - intuition.
  - destruct (String.eqb k k') eqn:E; simpl.
    + apply String.eqb_eq in E. subst. rewrite IH. intuition congruence.
    + apply String.eqb_neq in E. rewrite IH. intuition congruence.
Qed.

Lemma wf_set k v d : Dict.wf d -> Dict.wf (Dict.set k v d).
Proof.
  unfold Dict.wf. induction d as [|[k' v'] d IH]; simpl; intros W.
  - constructor; [simpl; tauto | constructor].
  - inversion W as [|? ? Hn W']; subst.
    destruct (String.eqb k k') eqn:E; simpl.
    + now constructor.
    + apply String.eqb_neq in E. constructor; auto.
      fold (Dict.keys (Dict.set k v d)). rewrite in_keys_set.
      intuition congruence.
Qed.

Lemma wf_remove k d : Dict.wf d -> Dict.wf (Dict.remove k d).
Proof.
  unfold Dict.wf. induction d as [|[k' v'] d IH]; simpl; intros W; auto.
  inversion W as [|? ? Hn W']; subst.
  destruct (String.eqb k k') eqn:E; simpl; auto.
  constructor; auto.
  fold (Dict.keys (Dict.remove k d)). rewrite in_keys_remove. tauto.
Qed.

(** Assigning to a key that is absent appends it. *)
Lemma keys_set_new k v d :
  Dict.get k d = None -> Dict.keys (Dict.set k v d) = (Dict.keys d ++ [k])%list.
Proof.
  induction d as [|[k' v'] d IH]; simpl; auto.
  destruct (String.eqb k k') eqn:E; [discriminate|].
  intros H. simpl. now rewrite (IH H).
Qed.

(** Assigning to a key that is there leaves the keys as they are. *)
Lemma keys_set_old k v d :
  In k (Dict.keys d) -> Dict.keys (Dict.set k v d) = Dict.keys d.
Proof.
  induction d as [|[k' v'] d IH]; simpl; [tauto|].
  destruct (String.eqb k k') eqn:E; simpl; auto.
  apply String.eqb_neq in E. intros [H|H]; [congruence|].
  now rewrite (IH H).
Qed.

Lemma del_present k v d :
  Dict.get k d = Some v -> Dict.del k d = Some (Dict.remove k d).
Proof.
  intros H. unfold Dict.del, Dict.contains. now rewrite H.
Qed.

End DictFacts.

(* ------------------------------------------------------------------ *)
(** ** The three messages *)

Lemma list_ascii_of_string_app (s1 s2 : string) :
  list_ascii_of_string (s1 ++ s2)
  = (list_ascii_of_string s1 ++ list_ascii_of_string s2)%list.
Proof.
  induction s1 as [|a s1 IH]; simpl; [reflexivity | now rewrite IH].
Qed.

(** The characters of [s ++ t], last one first, start with those of [t]. *)
Lemma rev_chars_app (s t : string) :
  rev (list_ascii_of_string (s ++ t))
  = (rev (list_ascii_of_string t) ++ rev (list_ascii_of_string s))%list.
Proof.
  now rewrite list_ascii_of_string_app, rev_app_distr.
Qed.

Lemma duplicate_message_not_found_message (a b : string) :
  "Provider '" ++ a ++ "' already registered" <> "Provider '" ++ b ++ "' not found".
Proof.
  intros H.
  apply (f_equal (fun s => rev (list_ascii_of_string s))) in H.
  rewrite !rev_chars_app in H. simpl in H. discriminate H.
Qed.

Lemma duplicate_message_no_credentials_message (a b : string) :
  "Provider '" ++ a ++ "' already registered"
  <> "No credentials found for provider '" ++ b ++ "'".
Proof. simpl. discriminate. Qed.

Lemma not_found_message_no_credentials_message (a b : string) :
  "Provider '" ++ a ++ "' not found"
  <> "No credentials found for provider '" ++ b ++ "'".
Proof. simpl. discriminate. Qed.

(* ------------------------------------------------------------------ *)
(** ** The provider a method works with *)

Lemma usable_provider_true (id : string) (p : AuthProvider.t)
    (st : AuthManager.State) :
  AuthManager.get_provider id st = Some p ->
  AuthProvider.__bool__ p = true ->
  usable_provider id st = Some p.
Proof. unfold usable_provider. intros H B. now rewrite H, B. Qed.


Lemma usable_provider_none (id : string) (st : AuthManager.State) :
  AuthManager.get_provider id st = None -> usable_provider id st = None.
Proof. unfold usable_provider. intros H. now rewrite H. Qed.

Lemma usable_provider_registered (id : string) (p : AuthProvider.t)
    (st : AuthManager.State) :
  usable_provider id st = Some p ->
  AuthManager.get_provider id st = Some p /\ AuthProvider.__bool__ p = true.
Proof.
  unfold usable_provider.
  destruct (AuthManager.get_provider id st) as [q|]; [|discriminate].
  destruct (AuthProvider.__bool__ q) eqn:B; [|discriminate].
  intros H. inversion H. subst q. auto.
Qed.

(** Unfolds the test [if not provider] of a method on a provider that is
    known to pass it, or known not to. *)
Ltac with_provider H :=
  let G := fresh "G" in
  let B := fresh "B" in
  unfold AuthManager.get_provider;
  first
    [ destruct (usable_provider_registered _ _ _ H) as [G B];
      unfold AuthManager.get_provider in G; rewrite G; simpl; rewrite B; simpl
    | unfold usable_provider, AuthManager.get_provider in H;
      match type of H with
      | context [Dict.get ?id ?d] =>
          destruct (Dict.get id d) as [?p|] eqn:G; simpl;
          [ destruct (AuthProvider.__bool__ p) eqn:B; simpl;
            [discriminate H|]
          | ]
      end ].

(* ------------------------------------------------------------------ *)
(** ** Methods that raise *)

Lemma register_provider_duplicate (p q : AuthProvider.t) (st : AuthManager.State) :
  AuthManager.get_provider (AuthProvider.provider_id p) st = Some q ->
  AuthManager.register_provider p st
  = (Raise (DuplicateProviderError (AuthProvider.provider_id p)), st).
Proof.
  run_manager. unfold Dict.contains. intros H. now rewrite H.
Qed.

Lemma register_provider_new (p : AuthProvider.t) (st : AuthManager.State) :
  AuthManager.get_provider (AuthProvider.provider_id p) st = None ->
  AuthManager.register_provider p st
  = (Return tt,
     AuthManager.mkState
       (AuthManager.mk
          (Dict.set (AuthProvider.provider_id p) p
             (AuthManager._providers (AuthManager.self st)))
          (AuthManager._credentials (AuthManager.self st)))
       (AuthManager.store st)).
Proof.
  run_manager. unfold Dict.contains. intros H. now rewrite H.
Qed.

Lemma authenticate_no_provider
    (id : string) (c : AuthCredentials.t) (st : AuthManager.State) :
  usable_provider id st = None ->
  AuthManager.authenticate id c st = (Raise (ProviderNotFoundError id), st).
Proof.
  run_manager. intros H. with_provider H; reflexivity.
Qed.

Lemma authenticate_unregistered
    (id : string) (c : AuthCredentials.t) (st : AuthManager.State) :
  AuthManager.get_provider id st = None ->
  AuthManager.authenticate id c st = (Raise (ProviderNotFoundError id), st).
Proof.
  intros H. apply authenticate_no_provider. now apply usable_provider_none.
Qed.

Lemma refresh_credentials_nothing_stored
    (now id : string) (st : AuthManager.State) :
  AuthManager.get_credentials id st = None ->
  AuthManager.refresh_credentials now id st
  = (Raise (CredentialsNotFoundError id), st).
Proof.
  run_manager. intros H. now rewrite H.
Qed.

(** The provider check of [refresh_credentials] is reached only with a
    credential in hand: an orphaned one. *)
Lemma refresh_credentials_no_provider
    (now id : string) (c : AuthCredentials.t) (st : AuthManager.State) :
  AuthManager.get_credentials id st = Some c ->
  usable_provider id st = None ->
  AuthManager.refresh_credentials now id st
  = (Raise (ProviderNotFoundError id), st).
Proof.
  run_manager. intros H1 H2. rewrite H1. simpl. with_provider H2; reflexivity.
Qed.


(** C1 (as amended): on an id that was never registered, so that the manager
    holds neither a provider nor a credential for it, [refresh_credentials]
    raises the error of a missing credential, the [ValueError] with message
    [No credentials found for provider '<id>'], and leaves the manager as it
    was: the stored credential is looked up before the provider. *)
Theorem refresh_credentials_never_registered
    (now id : string) (st : AuthManager.State) :
  AuthManager.get_provider id st = None ->
  AuthManager.get_credentials id st = None ->
  AuthManager.refresh_credentials now id st
  = (Raise (CredentialsNotFoundError id), st).
Proof.
  intros _ H. now apply refresh_credentials_nothing_stored.
Qed.

Lemma refresh_credentials_never_registered_witness :
  AuthManager.refresh_credentials "2026-11-04 00:00:00" "missing"
    (Examples.signed_in Examples.hf Examples.token_credentials)
  = (Raise (ValueError "No credentials found for provider 'missing'"),
     Examples.signed_in Examples.hf Examples.token_credentials).
Proof.
  apply (refresh_credentials_never_registered
           "2026-11-04 00:00:00" "missing"
           (Examples.signed_in Examples.hf Examples.token_credentials));
    reflexivity.
Defined.

(** C1 (as stated) fails: with a provider ["hf"] registered and signed in,
    [refresh_credentials("missing")] raises an exception that is not the one
    of an unregistered provider, whatever id that one would name. *)
Lemma refresh_credentials_missing_is_not_provider_not_found :
  exists e,
    fst (AuthManager.refresh_credentials "2026-11-04 00:00:00" "missing"
           (Examples.signed_in Examples.hf Examples.token_credentials))
    = Raise e /\
    e = CredentialsNotFoundError "missing" /\
    forall id, e <> ProviderNotFoundError id.
Proof.
  eexists. split; [reflexivity|]. split; [reflexivity|].
  intros id H. discriminate H.
Qed.

(** C2 (as amended): the three structural failures, registering a duplicate
    provider id, authenticating on an unregistered id and refreshing with no
    stored credential, all raise an exception of one and the same class,
    [ValueError]; what tells them apart is the message, and the three
    messages differ whatever ids they name. *)
Theorem structural_failures_share_ValueError
    (st : AuthManager.State) (p q : AuthProvider.t)
    (id1 id2 now : string) (c : AuthCredentials.t) :
  AuthManager.get_provider (AuthProvider.provider_id p) st = Some q ->
  AuthManager.get_provider id1 st = None ->
  AuthManager.get_credentials id2 st = None ->
  exists m1 m2 m3,
    fst (AuthManager.register_provider p st) = Raise (ValueError m1) /\
    fst (AuthManager.authenticate id1 c st) = Raise (ValueError m2) /\
    fst (AuthManager.refresh_credentials now id2 st) = Raise (ValueError m3) /\
    m1 = "Provider '" ++ AuthProvider.provider_id p ++ "' already registered" /\
    m2 = "Provider '" ++ id1 ++ "' not found" /\
    m3 = "No credentials found for provider '" ++ id2 ++ "'" /\
    m1 <> m2 /\ m1 <> m3 /\ m2 <> m3.
Proof.
  intros H1 H2 H3.
  rewrite (register_provider_duplicate p q st H1).
  rewrite (authenticate_unregistered id1 c st H2).
  rewrite (refresh_credentials_nothing_stored now id2 st H3).
  do 3 eexists. repeat split.
  - apply duplicate_message_not_found_message.
  - apply duplicate_message_no_credentials_message.
  - apply not_found_message_no_credentials_message.
Qed.

Lemma structural_failures_share_ValueError_witness :
  exists m1 m2 m3,
    fst (AuthManager.register_provider Examples.hf
           (Examples.registered Examples.hf)) = Raise (ValueError m1) /\
    fst (AuthManager.authenticate "nobody" Examples.token_credentials
           (Examples.registered Examples.hf)) = Raise (ValueError m2) /\
    fst (AuthManager.refresh_credentials "2026-11-04 00:00:00" "hf"
           (Examples.registered Examples.hf)) = Raise (ValueError m3) /\
    m1 = "Provider 'hf' already registered" /\
    m2 = "Provider 'nobody' not found" /\
    m3 = "No credentials found for provider 'hf'" /\
    m1 <> m2 /\ m1 <> m3 /\ m2 <> m3.
Proof.
  apply (structural_failures_share_ValueError
           (Examples.registered Examples.hf) Examples.hf Examples.hf
           "nobody" "hf" "2026-11-04 00:00:00" Examples.token_credentials);
    reflexivity.
Defined.

(** C2 (as stated) fails: on a manager that holds the provider ["hf"] and no
    credential, the duplicate registration, the authentication on an
    unregistered id and the refresh without a credential raise exceptions of
    the same class. *)
Lemma structural_failures_not_three_classes :
  exists e1 e2 e3,
    raised (fst (AuthManager.register_provider Examples.hf
                   (Examples.registered Examples.hf))) = Some e1 /\
    raised (fst (AuthManager.authenticate "nobody" Examples.token_credentials
                   (Examples.registered Examples.hf))) = Some e2 /\
    raised (fst (AuthManager.refresh_credentials "2026-11-04 00:00:00" "hf"
                   (Examples.registered Examples.hf))) = Some e3 /\
    class_of e1 = class_of e2 /\ class_of e2 = class_of e3.
Proof.
  do 3 eexists. repeat split.
Qed.

(* ------------------------------------------------------------------ *)
(** ** authenticate *)

Lemma authenticate_accepted
    (id : string) (c : AuthCredentials.t) (p : AuthProvider.t)
    (st : AuthManager.State) :
  usable_provider id st = Some p ->
  AuthProvider.authenticate p c (AuthManager.store st) = true ->
  AuthManager.authenticate id c st
  = (Return true,
     AuthManager.mkState
       (AuthManager.mk
          (AuthManager._providers (AuthManager.self st))
          (Dict.set id c (AuthManager._credentials (AuthManager.self st))))
       (AuthManager.store st)).
Proof.
  run_manager. intros H1 H2. with_provider H1. now rewrite H2.
Qed.

Lemma authenticate_rejected
    (id : string) (c : AuthCredentials.t) (p : AuthProvider.t)
    (st : AuthManager.State) :
  usable_provider id st = Some p ->
  AuthProvider.authenticate p c (AuthManager.store st) = false ->
  AuthManager.authenticate id c st = (Return false, st).
Proof.
  run_manager. intros H1 H2. with_provider H1. now rewrite H2.
Qed.




(* ------------------------------------------------------------------ *)
(** ** validate_credentials and revoke_credentials *)

Lemma validate_credentials_nothing_stored (id : string) (st : AuthManager.State) :
  AuthManager.get_credentials id st = None ->
  AuthManager.validate_credentials id st = false.
Proof.
  unfold AuthManager.validate_credentials, AuthManager.get_credentials.
  intros H. now rewrite H.
Qed.



Lemma validate_credentials_delegates
    (id : string) (c : AuthCredentials.t) (p : AuthProvider.t)
    (st : AuthManager.State) :
  AuthManager.get_credentials id st = Some c ->
  usable_provider id st = Some p ->
  AuthManager.validate_credentials id st
  = AuthProvider.validate_token p c (AuthManager.store st).
Proof.
  unfold AuthManager.validate_credentials, AuthManager.get_credentials.
  intros H1 H2. rewrite H1. with_provider H2. reflexivity.
Qed.

Lemma revoke_credentials_no_provider (id : string) (st : AuthManager.State) :
  AuthManager.get_credentials id st = None \/ usable_provider id st = None ->
  AuthManager.revoke_credentials id st = (Return false, st).
Proof.
  run_manager. intros [H|H].
  - now rewrite H.
  - destruct (Dict.get id (AuthManager._credentials _)); [|reflexivity].
    simpl. with_provider H; reflexivity.
Qed.

Lemma revoke_credentials_nothing_to_do (id : string) (st : AuthManager.State) :
  AuthManager.get_credentials id st = None \/
  AuthManager.get_provider id st = None ->
  AuthManager.revoke_credentials id st = (Return false, st).
Proof.
  intros [H|H]; apply revoke_credentials_no_provider; [now left | right].
  now apply usable_provider_none.
Qed.

Lemma revoke_credentials_accepted
    (id : string) (c : AuthCredentials.t) (p : AuthProvider.t)
    (st : AuthManager.State) :
  AuthManager.get_credentials id st = Some c ->
  usable_provider id st = Some p ->
  AuthProvider.revoke_token p c (AuthManager.store st) = true ->
  AuthManager.revoke_credentials id st
  = (Return true,
     AuthManager.mkState
       (AuthManager.mk
          (AuthManager._providers (AuthManager.self st))
          (Dict.remove id (AuthManager._credentials (AuthManager.self st))))
       (AuthManager.store st)).
Proof.
  run_manager. intros H1 H2 H3. rewrite H1. simpl. with_provider H2.
  rewrite H3. simpl. now rewrite (del_present id c _ H1).
Qed.

Lemma revoke_credentials_rejected
    (id : string) (c : AuthCredentials.t) (p : AuthProvider.t)
    (st : AuthManager.State) :
  AuthManager.get_credentials id st = Some c ->
  usable_provider id st = Some p ->
  AuthProvider.revoke_token p c (AuthManager.store st) = false ->
  AuthManager.revoke_credentials id st = (Return false, st).
Proof.
  run_manager. intros H1 H2 H3. rewrite H1. simpl. with_provider H2.
  now rewrite H3.
Qed.




(* ------------------------------------------------------------------ *)
(** ** refresh_credentials *)

Lemma state_eta (st : AuthManager.State) :
  AuthManager.mkState
    (AuthManager.mk (AuthManager._providers (AuthManager.self st))
                    (AuthManager._credentials (AuthManager.self st)))
    (AuthManager.store st)
  = st.
Proof. now destruct st as [[ps cs] s]. Qed.

Lemma refresh_credentials_delegates
    (now id : string) (c : AuthCredentials.t) (p : AuthProvider.t)
    (st : AuthManager.State) :
  AuthManager.get_credentials id st = Some c ->
  usable_provider id st = Some p ->
  AuthManager.refresh_credentials now id st
  = (Return true,
     AuthManager.mkState
       (AuthManager.mk
          (AuthManager._providers (AuthManager.self st))
          (Dict.set id
             (fst (AuthProvider.refresh_token p now c (AuthManager.store st)))
             (AuthManager._credentials (AuthManager.self st))))
       (snd (AuthProvider.refresh_token p now c (AuthManager.store st)))).
Proof.
  run_manager. intros H1 H2. rewrite H1. simpl. with_provider H2.
  now destruct (AuthProvider.refresh_token p now c (AuthManager.store st)).
Qed.

Lemma store_upd_same (l : loc) (d : Dict.t Any) (s : Store.t) :
  Store.upd l d s l = d.
Proof. unfold Store.upd. now rewrite Nat.eqb_refl. Qed.

Lemma store_upd_other (l l' : loc) (d : Dict.t Any) (s : Store.t) :
  l' <> l -> Store.upd l d s l' = s l'.
Proof.
  intros N. unfold Store.upd.
  destruct (Nat.eqb l' l) eqn:E; [|reflexivity].
  apply Nat.eqb_eq in E. contradiction.
Qed.

(** C5: with an OAuth2 or a JWT provider registered under [id] and a
    credential stored for it, [refresh_credentials(id)] returns true; after
    it the credential stored for [id] is the same record, so its
    [access_token], [refresh_token] and every other field are as before, and
    the metadata dictionary it refers to holds the time of the refresh under
    ["refreshed_at"], its other entries and all other dictionaries being
    unchanged. *)
Theorem refresh_credentials_stamps
    (st : AuthManager.State) (now id pid : string) (cfg : Dict.t Any)
    (p : AuthProvider.t) (c : AuthCredentials.t) :
  p = OAuth2Provider.new pid cfg \/ p = JWTProvider.new pid cfg ->
  AuthManager.get_provider id st = Some p ->
  AuthManager.get_credentials id st = Some c ->
  let st' := snd (AuthManager.refresh_credentials now id st) in
  let m := AuthCredentials.metadata c in
  fst (AuthManager.refresh_credentials now id st) = Return true /\
  AuthManager.get_credentials id st' = Some c /\
  AuthManager.self st' = AuthManager.self st /\
  Dict.get "refreshed_at" (AuthManager.store st' m) = Some (AnyStr now) /\
  (forall key, key <> "refreshed_at" ->
     Dict.get key (AuthManager.store st' m)
     = Dict.get key (AuthManager.store st m)) /\
  (forall l, l <> m -> AuthManager.store st' l = AuthManager.store st l).
Proof.
  intros Hp H1 H2 st' m. subst st' m.
  assert (U : usable_provider id st = Some p)
    by (apply usable_provider_true;
        [exact H1 | destruct Hp; subst p; reflexivity]).
  rewrite (refresh_credentials_delegates now id c p st H2 U).
  assert (R : AuthProvider.refresh_token p now c (AuthManager.store st)
              = (c, stamp_refreshed_at now c (AuthManager.store st)))
    by (destruct Hp; subst p; reflexivity).
  rewrite R. simpl.
  unfold AuthManager.get_credentials in *. simpl.
  rewrite (set_get_id id c _ H2).
  repeat split; auto.
  - now destruct st as [[ps cs] s].
  - unfold stamp_refreshed_at. rewrite store_upd_same. apply get_set_same.
  - intros key N. unfold stamp_refreshed_at. rewrite store_upd_same.
    apply get_set_other. congruence.
  - intros l N. unfold stamp_refreshed_at. now apply store_upd_other.
Qed.

(** The OAuth2 provider ["hf"] and the JWT provider ["j"], each signed in
    with an access token. *)
Lemma refresh_credentials_stamps_witness :
  let st := Examples.signed_in Examples.hf Examples.token_credentials in
  let st' := snd (AuthManager.refresh_credentials "2026-11-04 00:00:00" "hf" st) in
  let sj := Examples.signed_in Examples.j Examples.token_credentials in
  let sj' := snd (AuthManager.refresh_credentials "2026-11-04 00:00:01" "j" sj) in
  (fst (AuthManager.refresh_credentials "2026-11-04 00:00:00" "hf" st)
   = Return true /\
   AuthManager.get_credentials "hf" st' = Some Examples.token_credentials /\
   Dict.get "refreshed_at" (AuthManager.store st' 0)
   = Some (AnyStr "2026-11-04 00:00:00"))
  /\
  (fst (AuthManager.refresh_credentials "2026-11-04 00:00:01" "j" sj)
   = Return true /\
   AuthManager.get_credentials "j" sj' = Some Examples.token_credentials /\
   Dict.get "refreshed_at" (AuthManager.store sj' 0)
   = Some (AnyStr "2026-11-04 00:00:01")).
Proof.
  intros st st' sj sj'. split.
  - destruct (refresh_credentials_stamps st "2026-11-04 00:00:00" "hf" "hf"
                Dict.empty Examples.hf Examples.token_credentials)
      as (H1 & H2 & _ & H4 & _);
      [left; reflexivity | reflexivity | reflexivity |].
    split; [exact H1|]. split; [exact H2 | exact H4].
  - destruct (refresh_credentials_stamps sj "2026-11-04 00:00:01" "j" "j"
                Dict.empty Examples.j Examples.token_credentials)
      as (H1 & H2 & _ & H4 & _);
      [right; reflexivity | reflexivity | reflexivity |].
    split; [exact H1|]. split; [exact H2 | exact H4].
Defined.

(** C7: the [refresh_token] of a Basic and of an API-key provider returns the
    credential it is given and touches nothing, so that with such a provider
    registered under [id] and a credential stored for it,
    [refresh_credentials(id)] returns true and leaves the whole state, the
    stored credential with its metadata included, as it was. *)
Theorem refresh_credentials_unsupported
    (st : AuthManager.State) (now id pid : string) (cfg : Dict.t Any)
    (p : AuthProvider.t) (c : AuthCredentials.t) :
  p = BasicAuthProvider.new pid cfg \/ p = APIKeyProvider.new pid cfg ->
  AuthManager.get_provider id st = Some p ->
  AuthManager.get_credentials id st = Some c ->
  (forall now' c' s, AuthProvider.refresh_token p now' c' s = (c', s)) /\
  AuthManager.refresh_credentials now id st = (Return true, st).
Proof.
  intros Hp H1 H2.
  assert (R : forall now' c' s, AuthProvider.refresh_token p now' c' s = (c', s))
    by (destruct Hp; subst p; reflexivity).
  split; [exact R|].
  assert (U : usable_provider id st = Some p)
    by (apply usable_provider_true;
        [exact H1 | destruct Hp; subst p; reflexivity]).
  rewrite (refresh_credentials_delegates now id c p st H2 U), R. simpl.
  unfold AuthManager.get_credentials in H2.
  rewrite (set_get_id id c _ H2). now rewrite state_eta.
Qed.

Lemma refresh_credentials_unsupported_witness :
  let st := Examples.signed_in Examples.b Examples.basic_credentials in
  let st2 := Examples.signed_in Examples.k Examples.key_credentials in
  AuthManager.refresh_credentials "2026-11-04 00:00:00" "b" st = (Return true, st)
  /\
  AuthManager.refresh_credentials "2026-11-04 00:00:00" "k" st2 = (Return true, st2).
Proof.
  intros st st2. split.
  - apply (proj2 (refresh_credentials_unsupported st "2026-11-04 00:00:00"
                    "b" "b" Dict.empty Examples.b Examples.basic_credentials
                    (or_introl eq_refl) eq_refl eq_refl)).
  - apply (proj2 (refresh_credentials_unsupported st2 "2026-11-04 00:00:00"
                    "k" "k" Dict.empty Examples.k Examples.key_credentials
                    (or_intror eq_refl) eq_refl eq_refl)).
Defined.

(* ------------------------------------------------------------------ *)
(** ** The predicates of the four providers *)

Lemma truthy_present (o : option string) :
  truthy o = true <-> field_present o.
Proof.
  unfold field_present. destruct o as [s|]; simpl.
  - unfold str_truthy. rewrite negb_true_iff, String.eqb_neq. split.
    + intros N. exists s. auto.
    + intros [s' [E N]]. now inversion E.
  - split; [discriminate | intros [s [E _]]; discriminate].
Qed.

Lemma truthy_py_and (a b : option string) :
  truthy (py_and a b) = truthy a && truthy b.
Proof.
  unfold py_and. destruct (truthy a) eqn:E; simpl; auto.
Qed.

Lemma if_bool_id (x : bool) : (if x then true else false) = x.
Proof. now destruct x. Qed.

Lemma if_negb_id (x : bool) : (if negb x then false else true) = x.
Proof. now destruct x. Qed.

(** C6: for every credential and every one of the four providers,
    [authenticate] returns true exactly when the fields the provider
    requires are present, that is set to a non-empty string (the access token
    for OAuth2 and JWT, the username and the password for Basic, the API key
    for API-key), and false otherwise; [validate_token] computes the same
    value; and a required field left at [None] yields false from both, which
    are total functions and raise nothing. *)
Theorem provider_predicates
    (v : variant) (pid : string) (cfg : Dict.t Any)
    (c : AuthCredentials.t) (s : Store.t) :
  let p := provider_of v pid cfg in
  (AuthProvider.authenticate p c s = true <-> required_fields_present v c) /\
  (AuthProvider.authenticate p c s = false <-> ~ required_fields_present v c) /\
  AuthProvider.validate_token p c s = AuthProvider.authenticate p c s /\
  (required_field_missing v c ->
   AuthProvider.authenticate p c s = false /\
   AuthProvider.validate_token p c s = false).
Proof.
  intros p.
  assert (A : AuthProvider.authenticate p c s = true
              <-> required_fields_present v c).
  { subst p. destruct v; simpl;
      unfold OAuth2Provider.authenticate, BasicAuthProvider.authenticate,
             APIKeyProvider.authenticate, JWTProvider.authenticate;
      rewrite if_bool_id, ?truthy_py_and, ?andb_true_iff, ?truthy_present;
      reflexivity. }
  assert (B : AuthProvider.validate_token p c s = AuthProvider.authenticate p c s).
  { subst p. destruct v; simpl;
      unfold OAuth2Provider.authenticate, OAuth2Provider.validate_token,
             BasicAuthProvider.authenticate, BasicAuthProvider.validate_token,
             APIKeyProvider.authenticate, APIKeyProvider.validate_token,
             JWTProvider.authenticate, JWTProvider.validate_token;
      rewrite ?if_bool_id, ?if_negb_id; reflexivity. }
  assert (C : AuthProvider.authenticate p c s = false
              <-> ~ required_fields_present v c).
  { rewrite <- A. destruct (AuthProvider.authenticate p c s);
      split; congruence. }
  split; [exact A|]. split; [exact C|]. split; [exact B|].
  intros H.
  assert (F : AuthProvider.authenticate p c s = false).
  { apply C. intros P. destruct v; simpl in *; unfold field_present in P.
    - destruct P as [x [E _]]. congruence.
    - destruct P as [[x [E1 _]] [y [E2 _]]]. destruct H; congruence.
    - destruct P as [x [E _]]. congruence.
    - destruct P as [x [E _]]. congruence. }
  split; [exact F | now rewrite B].
Qed.

(** The Basic provider on a credential with a username and no password, and
    the OAuth2 provider on a credential with an access token. *)
Lemma provider_predicates_witness :
  (AuthProvider.authenticate Examples.b Examples.username_only
     Examples.empty_store = false /\
   AuthProvider.validate_token Examples.b Examples.username_only
     Examples.empty_store = false)
  /\
  AuthProvider.authenticate Examples.hf Examples.token_credentials
    Examples.empty_store = true.
Proof.
  split.
  - apply (proj2 (proj2 (proj2
      (provider_predicates Basic_style "b" Dict.empty Examples.username_only
         Examples.empty_store)))).
    right. reflexivity.
  - apply (proj2 (proj1
      (provider_predicates OAuth2_style "hf" Dict.empty
         Examples.token_credentials Examples.empty_store))).
    exists "tok-1". split; [reflexivity | discriminate].
Defined.

(** An access token set to the empty string counts as absent. *)
Lemma empty_access_token_is_rejected :
  AuthProvider.authenticate Examples.hf Examples.empty_token
    Examples.empty_store = false /\
  AuthProvider.validate_token Examples.hf Examples.empty_token
    Examples.empty_store = false /\
  ~ field_present (AuthCredentials.access_token Examples.empty_token).
Proof.
  repeat split. intros [x [E N]]. inversion E. congruence.
Qed.

(* ------------------------------------------------------------------ *)
(** ** register_provider on an id that is taken *)

(** C8: when a provider is already registered under the id of the provider
    passed to [register_provider], the call raises the error of a duplicate
    provider and the state is the one before the call: [list_providers], the
    provider found under that id and the credentials are unchanged, the
    second provider is not stored. *)
Theorem register_provider_duplicate_rejected
    (st : AuthManager.State) (p q : AuthProvider.t) :
  AuthManager.get_provider (AuthProvider.provider_id p) st = Some q ->
  let r := AuthManager.register_provider p st in
  fst r = Raise (DuplicateProviderError (AuthProvider.provider_id p)) /\
  snd r = st /\
  AuthManager.list_providers (snd r) = AuthManager.list_providers st /\
  AuthManager.get_provider (AuthProvider.provider_id p) (snd r) = Some q /\
  AuthManager._credentials (AuthManager.self (snd r))
  = AuthManager._credentials (AuthManager.self st).
Proof.
  intros H r. subst r. rewrite (register_provider_duplicate p q st H). simpl.
  repeat split; auto.
Qed.

(** A JWT provider that takes the id ["hf"] of the registered OAuth2 one. *)
Lemma register_provider_duplicate_rejected_witness :
  let st := Examples.signed_in Examples.hf Examples.token_credentials in
  let r := AuthManager.register_provider (JWTProvider.new "hf" Dict.empty) st in
  fst r = Raise (ValueError "Provider 'hf' already registered") /\
  snd r = st /\
  AuthManager.list_providers (snd r) = ["hf"] /\
  AuthManager.get_provider "hf" (snd r) = Some Examples.hf /\
  AuthManager._credentials (AuthManager.self (snd r))
  = [("hf", Examples.token_credentials)].
Proof.
  intros st.
  apply (register_provider_duplicate_rejected st
           (JWTProvider.new "hf" Dict.empty) Examples.hf).
  reflexivity.
Defined.

(* ------------------------------------------------------------------ *)
(** ** get_authentication_status and clear_all_credentials *)

Section StatusLoop.

Variable validate : string -> bool.

Lemma status_loop_get (ids : list string) :
  forall (acc : Dict.t bool) (id : string),
    Dict.get id (AuthManager.status_loop validate ids acc)
    = if in_dec string_dec id ids then Some (validate id) else Dict.get id acc.
Proof.
  unfold AuthManager.status_loop.
  induction ids as [|a ids IH]; intros acc id; simpl; [reflexivity|].
  rewrite IH.
  destruct (in_dec string_dec id ids) as [I|I];
    destruct (string_dec a id) as [E|E]; try reflexivity.
  - subst a. apply get_set_same.
  - now apply get_set_other.
Qed.

Lemma status_loop_keys (ids : list string) :
  forall (acc : Dict.t bool) (id : string),
    In id (Dict.keys (AuthManager.status_loop validate ids acc))
    <-> In id (Dict.keys acc) \/ In id ids.
Proof.
  unfold AuthManager.status_loop.
  induction ids as [|a ids IH]; intros acc id; simpl; [tauto|].
  rewrite IH, in_keys_set. intuition congruence.
Qed.

Lemma status_loop_wf (ids : list string) :
  forall acc : Dict.t bool,
    Dict.wf acc -> Dict.wf (AuthManager.status_loop validate ids acc).
Proof.
  unfold AuthManager.status_loop.
  induction ids as [|a ids IH]; intros acc W; simpl; auto.
  apply IH. now apply wf_set.
Qed.

(** On ids that are new and distinct the loop appends them in order. *)
Lemma status_loop_order (ids : list string) :
  forall acc : Dict.t bool,
    NoDup (Dict.keys acc ++ ids) ->
    Dict.keys (AuthManager.status_loop validate ids acc)
    = (Dict.keys acc ++ ids)%list.
Proof.
  unfold AuthManager.status_loop.
  induction ids as [|a ids IH]; intros acc N; simpl.
  - now rewrite app_nil_r.
  - assert (G : Dict.get a acc = None).
    { destruct (Dict.get a acc) as [x|] eqn:E; [|reflexivity].
      exfalso. apply NoDup_remove_2 in N. apply N, in_or_app. left.
      apply in_keys_get. eauto. }
    assert (K : Dict.keys (Dict.set a (validate a) acc)
                = (Dict.keys acc ++ [a])%list)
      by now apply keys_set_new.
    rewrite IH; rewrite K, <- app_assoc; auto.
Qed.

End StatusLoop.

Lemma get_authentication_status_get (st : AuthManager.State) (id : string) :
  In id (AuthManager.list_providers st) ->
  Dict.get id (AuthManager.get_authentication_status st)
  = Some (AuthManager.validate_credentials id st).
Proof.
  intros I. unfold AuthManager.get_authentication_status.
  rewrite status_loop_get.
  destruct (in_dec string_dec id _) as [_|N]; [reflexivity|].
  contradiction.
Qed.

Lemma get_authentication_status_in_keys (st : AuthManager.State) (id : string) :
  In id (Dict.keys (AuthManager.get_authentication_status st))
  <-> In id (AuthManager.list_providers st).
Proof.
  unfold AuthManager.get_authentication_status.
  rewrite status_loop_keys. simpl. unfold AuthManager.list_providers. tauto.
Qed.

(** On a genuine dictionary of providers the status has the keys of
    [list_providers], in the same order. *)
Lemma get_authentication_status_keys (st : AuthManager.State) :
  Dict.wf (AuthManager._providers (AuthManager.self st)) ->
  Dict.keys (AuthManager.get_authentication_status st)
  = AuthManager.list_providers st.
Proof.
  intros W. unfold AuthManager.get_authentication_status.
  now rewrite status_loop_order.
Qed.

(** C9: [clear_all_credentials] returns with an empty dictionary of
    credentials and with the providers untouched; in every state the keys of
    [get_authentication_status] are the registered provider ids, none of them
    twice, and each id is mapped to [validate_credentials] of that id; hence
    after [clear_all_credentials] every registered id is mapped to false. *)
Theorem clear_all_credentials_then_status (st : AuthManager.State) :
  let st' := snd (AuthManager.clear_all_credentials st) in
  fst (AuthManager.clear_all_credentials st) = Return tt /\
  AuthManager._credentials (AuthManager.self st') = Dict.empty /\
  AuthManager._providers (AuthManager.self st')
  = AuthManager._providers (AuthManager.self st) /\
  AuthManager.store st' = AuthManager.store st /\
  (forall st0 id,
     In id (Dict.keys (AuthManager.get_authentication_status st0))
     <-> In id (AuthManager.list_providers st0)) /\
  (forall st0, Dict.wf (AuthManager.get_authentication_status st0)) /\
  (forall st0 id,
     In id (AuthManager.list_providers st0) ->
     Dict.get id (AuthManager.get_authentication_status st0)
     = Some (AuthManager.validate_credentials id st0)) /\
  (forall id,
     In id (AuthManager.list_providers st') ->
     Dict.get id (AuthManager.get_authentication_status st') = Some false).
Proof.
  intros st'. subst st'. simpl.
  repeat split; auto.
  - now apply get_authentication_status_in_keys.
  - now apply get_authentication_status_in_keys.
  - intros st0. unfold AuthManager.get_authentication_status.
    apply status_loop_wf. constructor.
  - apply get_authentication_status_get.
  - intros id I. rewrite get_authentication_status_get by exact I.
    now rewrite validate_credentials_nothing_stored.
Qed.

(** Two providers signed in, then [clear_all_credentials()]. *)
Lemma clear_all_credentials_then_status_witness :
  let st :=
    snd (AuthManager.authenticate "b" Examples.basic_credentials
           (snd (AuthManager.register_provider Examples.b
                   (Examples.signed_in Examples.hf Examples.token_credentials)))) in
  let st' := snd (AuthManager.clear_all_credentials st) in
  AuthManager.get_authentication_status st = [("hf", true); ("b", true)] /\
  Dict.get "hf" (AuthManager.get_authentication_status st') = Some false /\
  Dict.get "b" (AuthManager.get_authentication_status st') = Some false.
Proof.
  intros st st'.
  destruct (clear_all_credentials_then_status st) as (_ & _ & _ & _ & _ & _ & _ & H).
  split; [reflexivity|]. split; apply H; simpl; auto.
Defined.

(* ------------------------------------------------------------------ *)
(** ** Credentials that outlive their provider *)

Lemma unregister_provider_registered
    (id : string) (p : AuthProvider.t) (st : AuthManager.State) :
  AuthManager.get_provider id st = Some p ->
  AuthManager.unregister_provider id st
  = (Return true,
     AuthManager.mkState
       (AuthManager.mk
          (Dict.remove id (AuthManager._providers (AuthManager.self st)))
          (AuthManager._credentials (AuthManager.self st)))
       (AuthManager.store st)).
Proof.
  run_manager. intros H. unfold Dict.del, Dict.contains. now rewrite H.
Qed.

Lemma unregister_provider_unregistered (id : string) (st : AuthManager.State) :
  AuthManager.get_provider id st = None ->
  AuthManager.unregister_provider id st = (Return false, st).
Proof.
  run_manager. intros H. unfold Dict.contains. now rewrite H.
Qed.




(* ------------------------------------------------------------------ *)
(** ** Further facts about the model *)

(** Every method keeps the keys of the two dictionaries unique, whatever it
    returns or raises. *)
Lemma wf_state_init (s : Store.t) :
  wf_state (AuthManager.mkState AuthManager.__init__ s).
Proof. split; constructor. Qed.

Lemma wf_state_register_provider (p : AuthProvider.t) (st : AuthManager.State) :
  wf_state st -> wf_state (snd (AuthManager.register_provider p st)).
Proof.
  intros [W1 W2].
  destruct (AuthManager.get_provider (AuthProvider.provider_id p) st)
    as [q|] eqn:E.
  - rewrite (register_provider_duplicate p q st E). now split.
  - rewrite (register_provider_new p st E). split; simpl; auto.
    now apply wf_set.
Qed.

Lemma wf_state_unregister_provider (id : string) (st : AuthManager.State) :
  wf_state st -> wf_state (snd (AuthManager.unregister_provider id st)).
Proof.
  intros [W1 W2].
  destruct (AuthManager.get_provider id st) as [q|] eqn:E.
  - rewrite (unregister_provider_registered id q st E). split; simpl; auto.
    now apply wf_remove.
  - rewrite (unregister_provider_unregistered id st E). now split.
Qed.

Lemma wf_state_authenticate
    (id : string) (c : AuthCredentials.t) (st : AuthManager.State) :
  wf_state st -> wf_state (snd (AuthManager.authenticate id c st)).
Proof.
  intros [W1 W2].
  destruct (usable_provider id st) as [p|] eqn:E.
  - destruct (AuthProvider.authenticate p c (AuthManager.store st)) eqn:A.
    + rewrite (authenticate_accepted id c p st E A). split; simpl; auto.
      now apply wf_set.
    + rewrite (authenticate_rejected id c p st E A). now split.
  - rewrite (authenticate_no_provider id c st E). now split.
Qed.

Lemma wf_state_refresh_credentials (now id : string) (st : AuthManager.State) :
  wf_state st -> wf_state (snd (AuthManager.refresh_credentials now id st)).
Proof.
  intros [W1 W2].
  destruct (AuthManager.get_credentials id st) as [c|] eqn:C.
  - destruct (usable_provider id st) as [p|] eqn:E.
    + rewrite (refresh_credentials_delegates now id c p st C E).
      split; simpl; auto. now apply wf_set.
    + rewrite (refresh_credentials_no_provider now id c st C E). now split.
  - rewrite (refresh_credentials_nothing_stored now id st C). now split.
Qed.

Lemma wf_state_revoke_credentials (id : string) (st : AuthManager.State) :
  wf_state st -> wf_state (snd (AuthManager.revoke_credentials id st)).
Proof.
  intros [W1 W2].
  destruct (AuthManager.get_credentials id st) as [c|] eqn:C.
  - destruct (usable_provider id st) as [p|] eqn:E.
    + destruct (AuthProvider.revoke_token p c (AuthManager.store st)) eqn:R.
      * rewrite (revoke_credentials_accepted id c p st C E R).
        split; simpl; auto. now apply wf_remove.
      * rewrite (revoke_credentials_rejected id c p st C E R). now split.
    + rewrite (revoke_credentials_no_provider id st (or_intror E)). now split.
  - rewrite (revoke_credentials_nothing_to_do id st (or_introl C)). now split.
Qed.

(** X7: in every state [unregister_provider] and [revoke_credentials] raise
    nothing, so the [del] statements they contain never meet a missing key,
    and whatever [register_provider], [authenticate] and
    [refresh_credentials] raise is a [ValueError]. *)
Lemma manager_raises_only_ValueError (st : AuthManager.State) :
  (forall p e, fst (AuthManager.register_provider p st) = Raise e ->
               class_of e = ValueError_class) /\
  (forall id b, fst (AuthManager.unregister_provider id st) <> Raise b) /\
  (forall id c e, fst (AuthManager.authenticate id c st) = Raise e ->
                  class_of e = ValueError_class) /\
  (forall now id e, fst (AuthManager.refresh_credentials now id st) = Raise e ->
                    class_of e = ValueError_class) /\
  (forall id e, fst (AuthManager.revoke_credentials id st) <> Raise e).
Proof.
  repeat split.
  - intros p e.
    destruct (AuthManager.get_provider (AuthProvider.provider_id p) st)
      as [q|] eqn:E.
    + rewrite (register_provider_duplicate p q st E). simpl.
      intros H. now inversion H.
    + rewrite (register_provider_new p st E). discriminate.
  - intros id b.
    destruct (AuthManager.get_provider id st) as [q|] eqn:E.
    + rewrite (unregister_provider_registered id q st E). discriminate.
    + rewrite (unregister_provider_unregistered id st E). discriminate.
  - intros id c e.
    destruct (usable_provider id st) as [p|] eqn:E.
    + destruct (AuthProvider.authenticate p c (AuthManager.store st)) eqn:A.
      * rewrite (authenticate_accepted id c p st E A). discriminate.
      * rewrite (authenticate_rejected id c p st E A). discriminate.
    + rewrite (authenticate_no_provider id c st E). simpl.
      intros H. now inversion H.
  - intros now id e.
    destruct (AuthManager.get_credentials id st) as [c|] eqn:C.
    + destruct (usable_provider id st) as [p|] eqn:E.
      * rewrite (refresh_credentials_delegates now id c p st C E). discriminate.
      * rewrite (refresh_credentials_no_provider now id c st C E). simpl.
        intros H. now inversion H.
    + rewrite (refresh_credentials_nothing_stored now id st C). simpl.
      intros H. now inversion H.
  - intros id e.
    destruct (AuthManager.get_credentials id st) as [c|] eqn:C.
    + destruct (usable_provider id st) as [p|] eqn:E.
      * destruct (AuthProvider.revoke_token p c (AuthManager.store st)) eqn:R.
        -- rewrite (revoke_credentials_accepted id c p st C E R). discriminate.
        -- rewrite (revoke_credentials_rejected id c p st C E R). discriminate.
      * rewrite (revoke_credentials_no_provider id st (or_intror E)).
        discriminate.
    + rewrite (revoke_credentials_nothing_to_do id st (or_introl C)).
      discriminate.
Qed.

Lemma manager_raises_only_ValueError_witness :
  class_of (ValueError "Provider 'hf' already registered") = ValueError_class /\
  class_of (ValueError "No credentials found for provider 'b'") = ValueError_class.
Proof.
  split.
  - apply (proj1 (manager_raises_only_ValueError
                    (Examples.signed_in Examples.hf Examples.token_credentials))
             Examples.hf).
    reflexivity.
  - apply (proj1 (proj2 (proj2 (proj2
             (manager_raises_only_ValueError
                (Examples.signed_in Examples.hf Examples.token_credentials)))))
             "2026-11-04 00:00:00" "b").
    reflexivity.
Defined.

(** A credential built without metadata owns an empty dictionary. *)
Lemma post_init_default_metadata
    (ty : AuthProviderType) (a r u p k : option string) (e : option Z)
    (fresh : loc) (s : Store.t) :
  let (c, s') := AuthCredentials.__init__ ty a r u p k e None fresh s in
  s' (AuthCredentials.metadata c) = Dict.empty /\
  forall l, l <> fresh -> s' l = s l.
Proof.
  simpl. split; [apply store_upd_same | intros l N; now apply store_upd_other].
Qed.

(** The metadata dictionary is shared, not copied: when one credential is
    signed in under an OAuth2 provider ["hf"] and under an API-key provider
    ["k"], a refresh of ["hf"] shows in the metadata of the credential held
    for ["k"]. *)
Lemma refresh_is_seen_through_shared_metadata :
  let c := AuthCredentials.mk OAUTH2 (Some "tok-1") None None None (Some "key")
             None 7 in
  let st :=
    snd (AuthManager.authenticate "k" c
           (snd (AuthManager.register_provider Examples.k
                   (Examples.signed_in Examples.hf c)))) in
  let st' := snd (AuthManager.refresh_credentials "2026-11-04 00:00:00" "hf" st) in
  forall held,
    AuthManager.get_credentials "k" st' = Some held ->
    Dict.get "refreshed_at" (AuthManager.store st (AuthCredentials.metadata held))
    = None /\
    Dict.get "refreshed_at" (AuthManager.store st' (AuthCredentials.metadata held))
    = Some (AnyStr "2026-11-04 00:00:00").
Proof.
  intros c st st' held H. inversion H. subst held. split; reflexivity.
Qed.

(* ------------------------------------------------------------------ *)
(** ** Registration and its inverse *)

Lemma remove_set_new {V : Type} (k : string) (v : V) (d : Dict.t V) :
  Dict.get k d = None -> Dict.remove k (Dict.set k v d) = d.
Proof.
  induction d as [|[k' v'] d IH]; simpl.
  - now rewrite String.eqb_refl.
  - destruct (String.eqb k k') eqn:E; [discriminate|].
    intros H. simpl. rewrite E. now rewrite (IH H).
Qed.

(** X1: [unregister_provider(id)] never raises; it returns whether a provider
    was registered under [id]; afterwards no provider is registered under
    [id], the providers of the other ids are the ones before, and the
    credentials (that of [id] included) and the metadata are untouched. *)
Theorem unregister_provider_spec (st : AuthManager.State) (id : string) :
  let st' := snd (AuthManager.unregister_provider id st) in
  fst (AuthManager.unregister_provider id st)
  = Return (Dict.contains id (AuthManager._providers (AuthManager.self st))) /\
  AuthManager.get_provider id st' = None /\
  (forall id', id' <> id ->
     AuthManager.get_provider id' st' = AuthManager.get_provider id' st) /\
  AuthManager._credentials (AuthManager.self st')
  = AuthManager._credentials (AuthManager.self st) /\
  AuthManager.store st' = AuthManager.store st.
Proof.
  intros st'. subst st'.
  destruct (AuthManager.get_provider id st) as [p|] eqn:E.
  - rewrite (unregister_provider_registered id p st E).
    unfold AuthManager.get_provider in *. unfold Dict.contains. rewrite E. simpl.
    repeat split; auto.
    + apply get_remove_same.
    + intros id' N. apply get_remove_other. congruence.
  - rewrite (unregister_provider_unregistered id st E).
    unfold AuthManager.get_provider in *. unfold Dict.contains. rewrite E. simpl.
    repeat split; auto.
Qed.

Lemma unregister_provider_spec_witness :
  let st :=
    snd (AuthManager.register_provider Examples.b
           (Examples.signed_in Examples.hf Examples.token_credentials)) in
  fst (AuthManager.unregister_provider "hf" st) = Return true /\
  fst (AuthManager.unregister_provider "nobody" st) = Return false /\
  AuthManager.get_provider "b" (snd (AuthManager.unregister_provider "hf" st))
  = Some Examples.b.
Proof.
  intros st.
  destruct (unregister_provider_spec st "hf") as (H1 & _ & H3 & _).
  destruct (unregister_provider_spec st "nobody") as (H1' & _).
  split; [exact H1|]. split; [exact H1'|].
  rewrite H3; [reflexivity | discriminate].
Defined.

(** X2: [register_provider(p)] on an id that is free returns normally;
    afterwards [get_provider] finds [p] under its id, [list_providers] is the
    list before with that id added at the end, the providers of the other ids
    and the credentials are as before. *)
Theorem register_provider_fresh (st : AuthManager.State) (p : AuthProvider.t) :
  AuthManager.get_provider (AuthProvider.provider_id p) st = None ->
  let st' := snd (AuthManager.register_provider p st) in
  fst (AuthManager.register_provider p st) = Return tt /\
  AuthManager.get_provider (AuthProvider.provider_id p) st' = Some p /\
  AuthManager.list_providers st'
  = (AuthManager.list_providers st ++ [AuthProvider.provider_id p])%list /\
  (forall id', id' <> AuthProvider.provider_id p ->
     AuthManager.get_provider id' st' = AuthManager.get_provider id' st) /\
  AuthManager._credentials (AuthManager.self st')
  = AuthManager._credentials (AuthManager.self st) /\
  AuthManager.store st' = AuthManager.store st.
Proof.
  intros H st'. subst st'. rewrite (register_provider_new p st H).
  unfold AuthManager.get_provider, AuthManager.list_providers in *. simpl.
  repeat split; auto.
  - apply get_set_same.
  - now apply keys_set_new.
  - intros id' N. apply get_set_other. congruence.
Qed.

Lemma register_provider_fresh_witness :
  let st := Examples.signed_in Examples.hf Examples.token_credentials in
  fst (AuthManager.register_provider Examples.b st) = Return tt /\
  AuthManager.list_providers (snd (AuthManager.register_provider Examples.b st))
  = ["hf"; "b"].
Proof.
  intros st.
  destruct (register_provider_fresh st Examples.b) as (H1 & _ & H3 & _);
    [reflexivity|].
  split; [exact H1 | exact H3].
Defined.

(** X3: registering a provider under a free id and unregistering that id
    gives back the state before the registration, and the second call
    returns true. *)
Theorem register_then_unregister (st : AuthManager.State) (p : AuthProvider.t) :
  AuthManager.get_provider (AuthProvider.provider_id p) st = None ->
  AuthManager.unregister_provider (AuthProvider.provider_id p)
    (snd (AuthManager.register_provider p st))
  = (Return true, st).
Proof.
  intros H. rewrite (register_provider_new p st H). simpl.
  rewrite (unregister_provider_registered (AuthProvider.provider_id p) p).
  - simpl. unfold AuthManager.get_provider in H.
    rewrite (remove_set_new _ _ _ H). now rewrite state_eta.
  - unfold AuthManager.get_provider. simpl. apply get_set_same.
Qed.

Lemma register_then_unregister_witness :
  let st := Examples.signed_in Examples.hf Examples.token_credentials in
  AuthManager.unregister_provider "b"
    (snd (AuthManager.register_provider Examples.b st))
  = (Return true, st).
Proof.
  intros st. apply (register_then_unregister st Examples.b). reflexivity.
Defined.

(* ------------------------------------------------------------------ *)
(** ** The life cycle under the four providers of the source *)

Lemma provider_of_authenticate
    (v : variant) (pid : string) (cfg : Dict.t Any)
    (c : AuthCredentials.t) (s : Store.t) :
  AuthProvider.authenticate (provider_of v pid cfg) c s = true
  <-> required_fields_present v c.
Proof.
  destruct v; simpl;
    unfold OAuth2Provider.authenticate, BasicAuthProvider.authenticate,
           APIKeyProvider.authenticate, JWTProvider.authenticate;
    rewrite if_bool_id, ?truthy_py_and, ?andb_true_iff, ?truthy_present;
    reflexivity.
Qed.

Lemma provider_of_validate_token
    (v : variant) (pid : string) (cfg : Dict.t Any)
    (c : AuthCredentials.t) (s s' : Store.t) :
  AuthProvider.validate_token (provider_of v pid cfg) c s
  = AuthProvider.authenticate (provider_of v pid cfg) c s'.
Proof.
  destruct v; simpl;
    unfold OAuth2Provider.authenticate, OAuth2Provider.validate_token,
           BasicAuthProvider.authenticate, BasicAuthProvider.validate_token,
           APIKeyProvider.authenticate, APIKeyProvider.validate_token,
           JWTProvider.authenticate, JWTProvider.validate_token;
    rewrite ?if_bool_id, ?if_negb_id; reflexivity.
Qed.

Lemma provider_of_revoke_token
    (v : variant) (pid : string) (cfg : Dict.t Any)
    (c : AuthCredentials.t) (s : Store.t) :
  AuthProvider.revoke_token (provider_of v pid cfg) c s = true.
Proof. now destruct v. Qed.

(** Every object of the four classes of the source is true: none of them
    defines [__bool__] or [__len__]. *)
Lemma provider_of_usable
    (v : variant) (pid : string) (cfg : Dict.t Any)
    (id : string) (st : AuthManager.State) :
  AuthManager.get_provider id st = Some (provider_of v pid cfg) ->
  usable_provider id st = Some (provider_of v pid cfg).
Proof.
  intros H. apply usable_provider_true; [exact H | now destruct v].
Qed.

(** X4: under any of the four providers of the source, registered under [id]
    with no credential stored yet, a credential that carries the fields the
    provider requires signs in ([authenticate] returns true), is valid
    afterwards ([validate_credentials] is true), and
    [revoke_credentials] then returns true and gives back the state before
    the sign-in. *)
Theorem sign_in_then_sign_out
    (st : AuthManager.State) (id pid : string) (cfg : Dict.t Any)
    (v : variant) (c : AuthCredentials.t) :
  AuthManager.get_provider id st = Some (provider_of v pid cfg) ->
  required_fields_present v c ->
  AuthManager.get_credentials id st = None ->
  let st1 := snd (AuthManager.authenticate id c st) in
  fst (AuthManager.authenticate id c st) = Return true /\
  AuthManager.validate_credentials id st1 = true /\
  AuthManager.revoke_credentials id st1 = (Return true, st).
Proof.
  intros Hp Hf Hc st1. subst st1.
  assert (A : AuthProvider.authenticate (provider_of v pid cfg) c
                (AuthManager.store st) = true)
    by now apply provider_of_authenticate.
  pose proof (provider_of_usable v pid cfg id st Hp) as Up.
  rewrite (authenticate_accepted id c _ st Up A). simpl.
  set (st1 := AuthManager.mkState _ _).
  assert (G1 : AuthManager.get_credentials id st1 = Some c)
    by apply get_set_same.
  assert (G2 : usable_provider id st1 = Some (provider_of v pid cfg))
    by exact Up.
  split; [reflexivity|]. split.
  - rewrite (validate_credentials_delegates id c _ st1 G1 G2).
    now rewrite (provider_of_validate_token v pid cfg c _ (AuthManager.store st)).
  - rewrite (revoke_credentials_accepted id c _ st1 G1 G2
               (provider_of_revoke_token v pid cfg c _)).
    unfold st1. simpl. unfold AuthManager.get_credentials in Hc.
    rewrite (remove_set_new _ _ _ Hc). now rewrite state_eta.
Qed.

Lemma sign_in_then_sign_out_witness :
  let st := Examples.registered Examples.b in
  let st1 := snd (AuthManager.authenticate "b" Examples.basic_credentials st) in
  fst (AuthManager.authenticate "b" Examples.basic_credentials st) = Return true /\
  AuthManager.validate_credentials "b" st1 = true /\
  AuthManager.revoke_credentials "b" st1 = (Return true, st).
Proof.
  intros st.
  apply (sign_in_then_sign_out st "b" "b" Dict.empty Basic_style
           Examples.basic_credentials).
  - reflexivity.
  - split; [exists "u" | exists "p"]; (split; [reflexivity | discriminate]).
  - reflexivity.
Defined.

(** X5: under any of the four providers of the source, whenever
    [authenticate(id, c)] returns true, [validate_credentials(id)] is true
    right after it and [get_authentication_status()] maps [id] to true. *)
Theorem authenticate_true_then_valid
    (st : AuthManager.State) (id pid : string) (cfg : Dict.t Any)
    (v : variant) (c : AuthCredentials.t) :
  AuthManager.get_provider id st = Some (provider_of v pid cfg) ->
  fst (AuthManager.authenticate id c st) = Return true ->
  let st1 := snd (AuthManager.authenticate id c st) in
  AuthManager.validate_credentials id st1 = true /\
  Dict.get id (AuthManager.get_authentication_status st1) = Some true.
Proof.
  intros Hp Hr st1. subst st1.
  pose proof (provider_of_usable v pid cfg id st Hp) as Up.
  destruct (AuthProvider.authenticate (provider_of v pid cfg) c
              (AuthManager.store st)) eqn:A.
  - rewrite (authenticate_accepted id c _ st Up A) in *. simpl.
    set (st1 := AuthManager.mkState _ _).
    assert (G1 : AuthManager.get_credentials id st1 = Some c)
      by apply get_set_same.
    assert (G2 : AuthManager.get_provider id st1 = Some (provider_of v pid cfg))
      by exact Hp.
    assert (U2 : usable_provider id st1 = Some (provider_of v pid cfg))
      by exact Up.
    assert (V : AuthManager.validate_credentials id st1 = true).
    { rewrite (validate_credentials_delegates id c _ st1 G1 U2).
      now rewrite (provider_of_validate_token v pid cfg c _ (AuthManager.store st)). }
    split; [exact V|].
    rewrite get_authentication_status_get; [now rewrite V|].
    apply in_keys_get. exists (provider_of v pid cfg). exact G2.
  - rewrite (authenticate_rejected id c _ st Up A) in Hr. discriminate.
Qed.

Lemma authenticate_true_then_valid_witness :
  let st := Examples.registered Examples.k in
  let st1 := snd (AuthManager.authenticate "k" Examples.key_credentials st) in
  AuthManager.validate_credentials "k" st1 = true /\
  Dict.get "k" (AuthManager.get_authentication_status st1) = Some true.
Proof.
  intros st.
  apply (authenticate_true_then_valid st "k" "k" Dict.empty API_key_style
           Examples.key_credentials); reflexivity.
Defined.



(* ------------------------------------------------------------------ *)
(** ** Invariants of the states a manager goes through *)

Lemma wf_state_clear_all_credentials (st : AuthManager.State) :
  wf_state st -> wf_state (snd (AuthManager.clear_all_credentials st)).
Proof. intros [W1 W2]. split; simpl; [exact W1 | constructor]. Qed.

Lemma wf_state_exec (c : call) (st : AuthManager.State) :
  wf_state st -> wf_state (exec c st).
Proof.
  destruct c; simpl.
  - apply wf_state_register_provider.
  - apply wf_state_unregister_provider.
  - apply wf_state_authenticate.
  - apply wf_state_refresh_credentials.
  - apply wf_state_revoke_credentials.
  - apply wf_state_clear_all_credentials.
Qed.

Lemma wf_state_run (cs : list call) :
  forall st, wf_state st -> wf_state (run cs st).
Proof.
  unfold run. induction cs as [|c cs IH]; intros st W; simpl; auto.
  apply IH. now apply wf_state_exec.
Qed.

(** X8: whatever calls are made on a new manager, in whatever order and
    whether they return or raise, no id occurs twice in [list_providers],
    no id holds two credentials, and [get_authentication_status] lists
    exactly the ids of [list_providers], in the same order. *)
Theorem reachable_states_have_unique_ids (cs : list call) (s : Store.t) :
  let st := run cs (AuthManager.mkState AuthManager.__init__ s) in
  NoDup (AuthManager.list_providers st) /\
  NoDup (Dict.keys (AuthManager._credentials (AuthManager.self st))) /\
  Dict.keys (AuthManager.get_authentication_status st)
  = AuthManager.list_providers st.
Proof.
  intros st.
  destruct (wf_state_run cs _ (wf_state_init s)) as [W1 W2].
  fold st in W1, W2.
  split; [exact W1|]. split; [exact W2|].
  unfold AuthManager.get_authentication_status.
  rewrite status_loop_order; [reflexivity | exact W1].
Qed.

Lemma covered_exec (c : call) (st : AuthManager.State) :
  is_unregister c = false -> covered st -> covered (exec c st).
Proof.
  unfold covered. destruct c as [p|id0|id0 cr|now id0|id0|]; simpl;
    intros U C id c; try discriminate.
  - destruct (AuthManager.get_provider (AuthProvider.provider_id p) st)
      as [q|] eqn:E.
    + rewrite (register_provider_duplicate p q st E). apply C.
    + rewrite (register_provider_new p st E).
      unfold AuthManager.get_credentials, AuthManager.get_provider. simpl.
      intros H. destruct (String.eqb id (AuthProvider.provider_id p)) eqn:Q.
      * apply String.eqb_eq in Q. subst id. exists p. apply get_set_same.
      * apply String.eqb_neq in Q. rewrite get_set_other by congruence.
        now apply (C id c).
  - destruct (usable_provider id0 st) as [p|] eqn:E.
    + destruct (AuthProvider.authenticate p cr (AuthManager.store st)) eqn:A.
      * rewrite (authenticate_accepted id0 cr p st E A).
        unfold AuthManager.get_credentials, AuthManager.get_provider. simpl.
        destruct (String.eqb id id0) eqn:Q.
        -- apply String.eqb_eq in Q. subst id. intros _. exists p.
           exact (proj1 (usable_provider_registered _ _ _ E)).
        -- apply String.eqb_neq in Q. rewrite get_set_other by congruence.
           apply C.
      * rewrite (authenticate_rejected id0 cr p st E A). apply C.
    + rewrite (authenticate_no_provider id0 cr st E). apply C.
  - destruct (AuthManager.get_credentials id0 st) as [c0|] eqn:G.
    + destruct (usable_provider id0 st) as [p|] eqn:E.
      * rewrite (refresh_credentials_delegates now id0 c0 p st G E).
        unfold AuthManager.get_credentials, AuthManager.get_provider. simpl.
        destruct (String.eqb id id0) eqn:Q.
        -- apply String.eqb_eq in Q. subst id. intros _. exists p.
           exact (proj1 (usable_provider_registered _ _ _ E)).
        -- apply String.eqb_neq in Q. rewrite get_set_other by congruence.
           apply C.
      * rewrite (refresh_credentials_no_provider now id0 c0 st G E). apply C.
    + rewrite (refresh_credentials_nothing_stored now id0 st G). apply C.
  - destruct (AuthManager.get_credentials id0 st) as [c0|] eqn:G.
    + destruct (usable_provider id0 st) as [p|] eqn:E.
      * destruct (AuthProvider.revoke_token p c0 (AuthManager.store st)) eqn:R.
        -- rewrite (revoke_credentials_accepted id0 c0 p st G E R).
           unfold AuthManager.get_credentials, AuthManager.get_provider. simpl.
           destruct (String.eqb id id0) eqn:Q.
           ++ apply String.eqb_eq in Q. subst id.
              now rewrite get_remove_same.
           ++ apply String.eqb_neq in Q.
              rewrite get_remove_other by congruence. apply C.
        -- rewrite (revoke_credentials_rejected id0 c0 p st G E R). apply C.
      * rewrite (revoke_credentials_no_provider id0 st (or_intror E)).
        apply C.
    + rewrite (revoke_credentials_nothing_to_do id0 st (or_introl G)).
      apply C.
Qed.

Lemma covered_run (cs : list call) :
  forall st,
    forallb (fun c => negb (is_unregister c)) cs = true ->
    covered st -> covered (run cs st).
Proof.
  unfold run. induction cs as [|c cs IH]; intros st F C; simpl; auto.
  simpl in F. apply andb_true_iff in F. destruct F as [F1 F2].
  apply IH; [exact F2|]. apply covered_exec; [|exact C].
  now apply negb_true_iff.
Qed.

(** X9: as long as [unregister_provider] is not called, a new manager never
    holds a credential for an id without a provider: after any sequence of
    the other calls, every id with a stored credential is registered. *)
Theorem credentials_have_providers (cs : list call) (s : Store.t) :
  forallb (fun c => negb (is_unregister c)) cs = true ->
  let st := run cs (AuthManager.mkState AuthManager.__init__ s) in
  forall id c,
    AuthManager.get_credentials id st = Some c ->
    exists p, AuthManager.get_provider id st = Some p.
Proof.
  intros F st. apply covered_run; [exact F|].
  intros id c H. discriminate H.
Qed.

Lemma credentials_have_providers_witness :
  exists p,
    AuthManager.get_provider "hf"
      (run [Call_register_provider Examples.hf;
            Call_authenticate "hf" Examples.token_credentials;
            Call_authenticate "nobody" Examples.token_credentials;
            Call_refresh_credentials "2026-11-04 00:00:00" "hf";
            Call_register_provider Examples.b]
         Examples.fresh)
    = Some p.
Proof.
  apply (credentials_have_providers
           [Call_register_provider Examples.hf;
            Call_authenticate "hf" Examples.token_credentials;
            Call_authenticate "nobody" Examples.token_credentials;
            Call_refresh_credentials "2026-11-04 00:00:00" "hf";
            Call_register_provider Examples.b]
           Examples.empty_store eq_refl "hf" Examples.token_credentials).
  reflexivity.
Defined.

(* ------------------------------------------------------------------ *)
(** ** Refreshing, and who sees it *)

Lemma refresh_credentials_stamp_state
    (st : AuthManager.State) (now id pid : string) (cfg : Dict.t Any)
    (p : AuthProvider.t) (c : AuthCredentials.t) :
  p = OAuth2Provider.new pid cfg \/ p = JWTProvider.new pid cfg ->
  AuthManager.get_provider id st = Some p ->
  AuthManager.get_credentials id st = Some c ->
  AuthManager.refresh_credentials now id st
  = (Return true,
     AuthManager.mkState (AuthManager.self st)
       (stamp_refreshed_at now c (AuthManager.store st))).
Proof.
  intros Hp H1 H2.
  assert (U : usable_provider id st = Some p)
    by (apply usable_provider_true;
        [exact H1 | destruct Hp; subst p; reflexivity]).
  rewrite (refresh_credentials_delegates now id c p st H2 U).
  assert (R : AuthProvider.refresh_token p now c (AuthManager.store st)
              = (c, stamp_refreshed_at now c (AuthManager.store st)))
    by (destruct Hp; subst p; reflexivity).
  rewrite R. simpl. unfold AuthManager.get_credentials in H2.
  rewrite (set_get_id id c _ H2). now destruct st as [[ps cs] s].
Qed.

(** X10: refreshing twice under an OAuth2 or a JWT provider keeps one
    ["refreshed_at"] entry: the second refresh returns true, replaces the
    time of the first by its own, adds no key to the metadata, and leaves the
    other entries and the stored credential as they were at the start. *)
Theorem refresh_credentials_twice
    (st : AuthManager.State) (now1 now2 id pid : string) (cfg : Dict.t Any)
    (p : AuthProvider.t) (c : AuthCredentials.t) :
  p = OAuth2Provider.new pid cfg \/ p = JWTProvider.new pid cfg ->
  AuthManager.get_provider id st = Some p ->
  AuthManager.get_credentials id st = Some c ->
  let st1 := snd (AuthManager.refresh_credentials now1 id st) in
  let st2 := snd (AuthManager.refresh_credentials now2 id st1) in
  let m := AuthCredentials.metadata c in
  fst (AuthManager.refresh_credentials now2 id st1) = Return true /\
  AuthManager.get_credentials id st2 = Some c /\
  Dict.get "refreshed_at" (AuthManager.store st2 m) = Some (AnyStr now2) /\
  Dict.keys (AuthManager.store st2 m) = Dict.keys (AuthManager.store st1 m) /\
  (forall key, key <> "refreshed_at" ->
     Dict.get key (AuthManager.store st2 m)
     = Dict.get key (AuthManager.store st m)).
Proof.
  intros Hp H1 H2 st1 st2 m. subst st2 st1 m.
  rewrite (refresh_credentials_stamp_state st now1 id pid cfg p c Hp H1 H2).
  simpl. set (st1 := AuthManager.mkState _ _).
  rewrite (refresh_credentials_stamp_state st1 now2 id pid cfg p c Hp H1 H2).
  simpl. unfold stamp_refreshed_at. rewrite !store_upd_same.
  repeat split; auto.
  - apply get_set_same.
  - apply keys_set_old. apply in_keys_get. eexists. apply get_set_same.
  - intros key N. rewrite !get_set_other by congruence. reflexivity.
Qed.

Lemma refresh_credentials_twice_witness :
  let st := Examples.signed_in Examples.j Examples.token_credentials in
  let st1 := snd (AuthManager.refresh_credentials "2026-11-04 00:00:00" "j" st) in
  let st2 := snd (AuthManager.refresh_credentials "2026-11-04 00:00:09" "j" st1) in
  Dict.get "refreshed_at" (AuthManager.store st2 0)
  = Some (AnyStr "2026-11-04 00:00:09") /\
  Dict.keys (AuthManager.store st2 0) = ["refreshed_at"].
Proof.
  intros st st1 st2.
  destruct (refresh_credentials_twice st "2026-11-04 00:00:00"
              "2026-11-04 00:00:09" "j" "j" Dict.empty Examples.j
              Examples.token_credentials)
    as (_ & _ & H3 & H4 & _); [right; reflexivity | reflexivity | reflexivity |].
  split; [exact H3 | exact H4].
Defined.

(** X11: the refresh of an OAuth2 or a JWT provider writes into the metadata
    dictionary itself: every credential the manager holds, under whatever
    id, stays the same record; those that share the dictionary of the
    refreshed credential show the new ["refreshed_at"] entry, and the
    dictionaries of the others are unchanged. *)
Theorem refresh_credentials_and_shared_metadata
    (st : AuthManager.State) (now id pid : string) (cfg : Dict.t Any)
    (p : AuthProvider.t) (c : AuthCredentials.t) :
  p = OAuth2Provider.new pid cfg \/ p = JWTProvider.new pid cfg ->
  AuthManager.get_provider id st = Some p ->
  AuthManager.get_credentials id st = Some c ->
  let st' := snd (AuthManager.refresh_credentials now id st) in
  forall id' c',
    AuthManager.get_credentials id' st = Some c' ->
    AuthManager.get_credentials id' st' = Some c' /\
    (AuthCredentials.metadata c' = AuthCredentials.metadata c ->
     Dict.get "refreshed_at" (AuthManager.store st' (AuthCredentials.metadata c'))
     = Some (AnyStr now)) /\
    (AuthCredentials.metadata c' <> AuthCredentials.metadata c ->
     AuthManager.store st' (AuthCredentials.metadata c')
     = AuthManager.store st (AuthCredentials.metadata c')).
Proof.
  intros Hp H1 H2 st' id' c' H'. subst st'.
  rewrite (refresh_credentials_stamp_state st now id pid cfg p c Hp H1 H2).
  simpl. unfold stamp_refreshed_at. repeat split.
  - exact H'.
  - intros E. rewrite E, store_upd_same. apply get_set_same.
  - intros N. now apply store_upd_other.
Qed.

(** One credential signed in under the OAuth2 provider ["hf"] and under the
    API-key provider ["k"], and a second one with a dictionary of its own
    under the Basic provider ["b"]. *)
Lemma refresh_credentials_and_shared_metadata_witness :
  let c := AuthCredentials.mk OAUTH2 (Some "tok-1") None None None (Some "key")
             None 7 in
  let st :=
    run [Call_register_provider Examples.hf; Call_authenticate "hf" c;
         Call_register_provider Examples.k; Call_authenticate "k" c;
         Call_register_provider Examples.b;
         Call_authenticate "b" Examples.basic_credentials]
      Examples.fresh in
  let st' := snd (AuthManager.refresh_credentials "2026-11-04 00:00:00" "hf" st) in
  Dict.get "refreshed_at" (AuthManager.store st 7) = None /\
  Dict.get "refreshed_at" (AuthManager.store st' 7)
  = Some (AnyStr "2026-11-04 00:00:00") /\
  AuthManager.store st' 1 = AuthManager.store st 1.
Proof.
  intros c st st'.
  destruct (refresh_credentials_and_shared_metadata st "2026-11-04 00:00:00"
              "hf" "hf" Dict.empty Examples.hf c (or_introl eq_refl)
              eq_refl eq_refl "k" c eq_refl) as (_ & H2 & _).
  destruct (refresh_credentials_and_shared_metadata st "2026-11-04 00:00:00"
              "hf" "hf" Dict.empty Examples.hf c (or_introl eq_refl)
              eq_refl eq_refl "b" Examples.basic_credentials eq_refl)
    as (_ & _ & H3).
  split; [reflexivity|]. split; [apply H2; reflexivity|].
  apply H3. discriminate.
Defined.

(* ------------------------------------------------------------------ *)
(** ** After clear_all_credentials *)

(** X12: after [clear_all_credentials()] every id is signed out, registered
    or not: nothing is stored for it, it does not validate,
    [revoke_credentials] returns false, [refresh_credentials] raises the
    error of a missing credential, both without changing the state; the
    providers are still listed, and clearing again changes nothing. *)
Theorem after_clear_all_credentials
    (st : AuthManager.State) (id now : string) :
  let st' := snd (AuthManager.clear_all_credentials st) in
  AuthManager.get_credentials id st' = None /\
  AuthManager.validate_credentials id st' = false /\
  AuthManager.revoke_credentials id st' = (Return false, st') /\
  AuthManager.refresh_credentials now id st'
  = (Raise (CredentialsNotFoundError id), st') /\
  AuthManager.list_providers st' = AuthManager.list_providers st /\
  AuthManager.clear_all_credentials st' = (Return tt, st').
Proof.
  intros st'.
  assert (G : AuthManager.get_credentials id st' = None) by reflexivity.
  split; [exact G|].
  split; [now apply validate_credentials_nothing_stored|].
  split; [apply revoke_credentials_nothing_to_do; now left|].
  split; [now apply refresh_credentials_nothing_stored|].
  split; reflexivity.
Qed.

(* ------------------------------------------------------------------ *)
(** ** What each method leaves alone *)

Lemma exec_keeps_providers (c : call) (st : AuthManager.State) :
  match c with
  | Call_register_provider _ | Call_unregister_provider _ => True
  | _ =>
      AuthManager._providers (AuthManager.self (exec c st))
      = AuthManager._providers (AuthManager.self st)
  end.
Proof.
  destruct c as [p|id|id cr|now id|id|]; simpl; auto.
  - destruct (usable_provider id st) as [p|] eqn:E.
    + destruct (AuthProvider.authenticate p cr (AuthManager.store st)) eqn:A.
      * now rewrite (authenticate_accepted id cr p st E A).
      * now rewrite (authenticate_rejected id cr p st E A).
    + now rewrite (authenticate_no_provider id cr st E).
  - destruct (AuthManager.get_credentials id st) as [c0|] eqn:G.
    + destruct (usable_provider id st) as [p|] eqn:E.
      * now rewrite (refresh_credentials_delegates now id c0 p st G E).
      * now rewrite (refresh_credentials_no_provider now id c0 st G E).
    + now rewrite (refresh_credentials_nothing_stored now id st G).
  - destruct (AuthManager.get_credentials id st) as [c0|] eqn:G.
    + destruct (usable_provider id st) as [p|] eqn:E.
      * destruct (AuthProvider.revoke_token p c0 (AuthManager.store st)) eqn:R.
        -- now rewrite (revoke_credentials_accepted id c0 p st G E R).
        -- now rewrite (revoke_credentials_rejected id c0 p st G E R).
      * now rewrite (revoke_credentials_no_provider id st (or_intror E)).
    + now rewrite (revoke_credentials_nothing_to_do id st (or_introl G)).
Qed.

Lemma exec_keeps_store (c : call) (st : AuthManager.State) :
  match c with
  | Call_refresh_credentials _ _ => True
  | _ => AuthManager.store (exec c st) = AuthManager.store st
  end.
Proof.
  destruct c as [p|id|id cr|now id|id|]; simpl; auto.
  - destruct (AuthManager.get_provider (AuthProvider.provider_id p) st)
      as [q|] eqn:E.
    + now rewrite (register_provider_duplicate p q st E).
    + now rewrite (register_provider_new p st E).
  - destruct (AuthManager.get_provider id st) as [q|] eqn:E.
    + now rewrite (unregister_provider_registered id q st E).
    + now rewrite (unregister_provider_unregistered id st E).
  - destruct (usable_provider id st) as [p|] eqn:E.
    + destruct (AuthProvider.authenticate p cr (AuthManager.store st)) eqn:A.
      * now rewrite (authenticate_accepted id cr p st E A).
      * now rewrite (authenticate_rejected id cr p st E A).
    + now rewrite (authenticate_no_provider id cr st E).
  - destruct (AuthManager.get_credentials id st) as [c0|] eqn:G.
    + destruct (usable_provider id st) as [p|] eqn:E.
      * destruct (AuthProvider.revoke_token p c0 (AuthManager.store st)) eqn:R.
        -- now rewrite (revoke_credentials_accepted id c0 p st G E R).
        -- now rewrite (revoke_credentials_rejected id c0 p st G E R).
      * now rewrite (revoke_credentials_no_provider id st (or_intror E)).
    + now rewrite (revoke_credentials_nothing_to_do id st (or_introl G)).
Qed.

(** X13: only [register_provider] and [unregister_provider] change the
    providers, and these two change neither a credential nor a metadata
    dictionary; only [refresh_credentials] changes a metadata dictionary.
    This holds for every call in every state, whether it returns or
    raises. *)
Theorem methods_touch_only_their_part (c : call) (st : AuthManager.State) :
  (is_unregister c = false ->
   (forall p, c <> Call_register_provider p) ->
   AuthManager._providers (AuthManager.self (exec c st))
   = AuthManager._providers (AuthManager.self st)) /\
  ((forall now id, c <> Call_refresh_credentials now id) ->
   AuthManager.store (exec c st) = AuthManager.store st) /\
  (is_unregister c = true \/ (exists p, c = Call_register_provider p) ->
   AuthManager._credentials (AuthManager.self (exec c st))
   = AuthManager._credentials (AuthManager.self st)).
Proof.
  split; [|split].
  - intros U N. pose proof (exec_keeps_providers c st) as K.
    destruct c; try exact K; [exfalso; eapply N; reflexivity | discriminate U].
  - intros N. pose proof (exec_keeps_store c st) as K.
    destruct c; try exact K. exfalso. eapply N. reflexivity.
  - intros [U|[p E]].
    + destruct c as [p|id|id cr|now id|id|]; try discriminate U. simpl.
      destruct (AuthManager.get_provider id st) as [q|] eqn:E.
      * now rewrite (unregister_provider_registered id q st E).
      * now rewrite (unregister_provider_unregistered id st E).
    + subst c. simpl.
      destruct (AuthManager.get_provider (AuthProvider.provider_id p) st)
        as [q|] eqn:E.
      * now rewrite (register_provider_duplicate p q st E).
      * now rewrite (register_provider_new p st E).
Qed.

Lemma methods_touch_only_their_part_witness :
  let st := Examples.signed_in Examples.hf Examples.token_credentials in
  AuthManager._providers (AuthManager.self (exec (Call_revoke_credentials "hf") st))
  = AuthManager._providers (AuthManager.self st) /\
  AuthManager.store (exec (Call_authenticate "hf" Examples.empty_token) st)
  = AuthManager.store st /\
  AuthManager._credentials
    (AuthManager.self (exec (Call_unregister_provider "hf") st))
  = AuthManager._credentials (AuthManager.self st).
Proof.
  intros st. split; [|split].
  - apply (proj1 (methods_touch_only_their_part (Call_revoke_credentials "hf") st));
      [reflexivity | discriminate].
  - apply (proj1 (proj2 (methods_touch_only_their_part
                           (Call_authenticate "hf" Examples.empty_token) st))).
    discriminate.
  - apply (proj2 (proj2 (methods_touch_only_their_part
                           (Call_unregister_provider "hf") st))).
    left. reflexivity.
Defined.

(* ------------------------------------------------------------------ *)
(** ** DevAuth *)

Lemma or_default_not_empty (x : option string) (default : string) :
  default <> "" -> DevAuth.or_default x default <> "".
Proof.
  intros D. unfold DevAuth.or_default. destruct x as [s|]; [|exact D].
  unfold str_truthy. destruct (String.eqb s "") eqn:E; simpl; [exact D|].
  now apply String.eqb_neq.
Qed.

Lemma or_default_present (x : option string) (default s : string) :
  x = Some s -> s <> "" -> DevAuth.or_default x default = s.
Proof.
  intros E N. subst x. unfold DevAuth.or_default, str_truthy.
  apply String.eqb_neq in N. now rewrite N.
Qed.

(** X14: a new [DevAuth] has a username and a password that are not empty:
    the ones passed to it when they are set and not empty, ["dev_user"] and
    ["dev_password"] otherwise; and it is signed out at every instant,
    whatever [token_expiry_hours] is: the token is not valid, [get_token] and
    [get_auth_headers] return [None], nothing is raised, and [refresh_token]
    returns false without changing the object. *)
Theorem DevAuth_new_object
    (u p : option string) (h : Z) (d : bool) (now : DevAuth.datetime) :
  let a := DevAuth.__init__ u p h d in
  DevAuth.username a <> "" /\ DevAuth.password a <> "" /\
  (forall s, u = Some s -> s <> "" -> DevAuth.username a = s) /\
  (forall s, p = Some s -> s <> "" -> DevAuth.password a = s) /\
  (truthy u = false -> DevAuth.username a = "dev_user") /\
  (truthy p = false -> DevAuth.password a = "dev_password") /\
  DevAuth.is_token_valid now a = DevAuth.Ok false /\
  DevAuth.get_token now a = DevAuth.Ok None /\
  DevAuth.get_auth_headers now a = DevAuth.Ok None /\
  DevAuth.refresh_token now a = (false, a).
Proof.
  intros a. subst a. simpl.
  split; [apply or_default_not_empty; discriminate|].
  split; [apply or_default_not_empty; discriminate|].
  split; [intros s; apply or_default_present|].
  split; [intros s; apply or_default_present|].
  split.
  { destruct u as [s|]; simpl; [|reflexivity]. intros T. now rewrite T. }
  split.
  { destruct p as [s|]; simpl; [|reflexivity]. intros T. now rewrite T. }
  repeat split.
Qed.

Lemma DevAuth_new_object_witness :
  DevAuth.username (DevAuth.__init__ (Some "ana") (Some "") 24 true) = "ana" /\
  DevAuth.password (DevAuth.__init__ (Some "ana") (Some "") 24 true)
  = "dev_password".
Proof.
  destruct (DevAuth_new_object (Some "ana") (Some "") 24 true 0%Z)
    as (_ & _ & H3 & _ & _ & H6 & _).
  split; [apply (H3 "ana"); [reflexivity | discriminate] | apply H6; reflexivity].
Defined.

Lemma timedelta_hours_in_range (t0 h : Z) :
  DevAuth.datetime_in_range t0 = true ->
  DevAuth.datetime_in_range (t0 + h * DevAuth.hour_us) = true ->
  DevAuth.timedelta_hours h = DevAuth.Ok (h * DevAuth.hour_us)%Z.
Proof.
  unfold DevAuth.datetime_in_range, DevAuth.timedelta_hours,
         DevAuth.MAXORDINAL, DevAuth.day_us, DevAuth.hour_us.
  intros H0 H1.
  apply andb_true_iff in H0. destruct H0 as [A0 B0].
  apply andb_true_iff in H1. destruct H1 as [A1 B1].
  apply Z.leb_le in A0, A1. apply Z.ltb_lt in B0, B1.
  assert (L : (-3652059 <= (h * 3600000000) / 86400000000)%Z)
    by (apply Z.div_le_lower_bound; lia).
  assert (U : ((h * 3600000000) / 86400000000 < 3652059)%Z)
    by (apply Z.div_lt_upper_bound; lia).
  cbv zeta.
  destruct (Z.abs (h * 3600000000 / 86400000000) <=? 999999999)%Z eqn:E;
    [reflexivity|].
  apply Z.leb_gt in E. lia.
Qed.

Lemma timedelta_hours_overflow (t0 h : Z) :
  DevAuth.datetime_in_range t0 = true ->
  DevAuth.timedelta_hours h = DevAuth.OverflowError ->
  DevAuth.datetime_in_range (t0 + h * DevAuth.hour_us) = false.
Proof.
  intros H0 H.
  destruct (DevAuth.datetime_in_range (t0 + h * DevAuth.hour_us)) eqn:E;
    [|reflexivity].
  rewrite (timedelta_hours_in_range t0 h H0 E) in H. discriminate.
Qed.

Lemma is_token_valid_after_authenticate (a : DevAuth.t) (t0 now : Z) :
  DevAuth.is_token_valid now (snd (DevAuth.authenticate t0 a))
  = match DevAuth.timedelta_hours (DevAuth.token_expiry_hours a) with
    | DevAuth.OverflowError => DevAuth.OverflowError
    | DevAuth.Ok d =>
        match DevAuth.datetime_add t0 d with
        | DevAuth.OverflowError => DevAuth.OverflowError
        | DevAuth.Ok e => DevAuth.Ok (now <? e)%Z
        end
    end.
Proof. reflexivity. Qed.

(** X15: after [authenticate()] at the instant [t0], when the expiry
    [t0 + token_expiry_hours] hours is an instant a [datetime] can hold, the
    token is valid exactly at the instants before the expiry; [get_token]
    returns ["dev_token_12345"] then and [None] from the expiry on.  With
    [token_expiry_hours <= 0] the token is never valid from [t0] on. *)
Theorem DevAuth_token_window (a : DevAuth.t) (t0 now : Z) :
  DevAuth.datetime_in_range t0 = true ->
  DevAuth.datetime_in_range
    (t0 + DevAuth.token_expiry_hours a * DevAuth.hour_us) = true ->
  let a1 := snd (DevAuth.authenticate t0 a) in
  let expiry := (t0 + DevAuth.token_expiry_hours a * DevAuth.hour_us)%Z in
  fst (DevAuth.authenticate t0 a) = true /\
  DevAuth.is_token_valid now a1 = DevAuth.Ok (now <? expiry)%Z /\
  DevAuth.get_token now a1
  = DevAuth.Ok (if (now <? expiry)%Z then Some "dev_token_12345" else None) /\
  ((DevAuth.token_expiry_hours a <= 0)%Z -> (t0 <= now)%Z ->
   DevAuth.is_token_valid now a1 = DevAuth.Ok false).
Proof.
  intros H0 H1 a1 expiry.
  assert (V : DevAuth.is_token_valid now a1 = DevAuth.Ok (now <? expiry)%Z).
  { unfold a1. rewrite is_token_valid_after_authenticate.
    rewrite (timedelta_hours_in_range t0 _ H0 H1).
    unfold DevAuth.datetime_add. now rewrite H1. }
  split; [reflexivity|]. split; [exact V|]. split.
  - unfold DevAuth.get_token. rewrite V. now destruct (now <? expiry)%Z.
  - intros Hh Hn. rewrite V. f_equal. apply Z.ltb_ge.
    unfold expiry, DevAuth.hour_us. lia.
Qed.

(** Signed in on 2026-11-04 at 00:00:00 with the default 24 hours: valid one
    microsecond before the expiry, not valid at the expiry. *)
Lemma DevAuth_token_window_witness :
  let a := DevAuth.__init__ None None DevAuth.DEFAULT_TOKEN_EXPIRY_HOURS true in
  let t0 := (739923 * DevAuth.day_us)%Z in
  let a1 := snd (DevAuth.authenticate t0 a) in
  DevAuth.is_token_valid (t0 + 24 * DevAuth.hour_us - 1)%Z a1 = DevAuth.Ok true /\
  DevAuth.is_token_valid (t0 + 24 * DevAuth.hour_us)%Z a1 = DevAuth.Ok false /\
  DevAuth.get_token t0 a1 = DevAuth.Ok (Some "dev_token_12345").
Proof.
  intros a t0 a1.
  destruct (DevAuth_token_window a t0 (t0 + 24 * DevAuth.hour_us - 1)%Z
              eq_refl eq_refl) as (_ & H2 & _).
  destruct (DevAuth_token_window a t0 (t0 + 24 * DevAuth.hour_us)%Z
              eq_refl eq_refl) as (_ & H2' & _).
  destruct (DevAuth_token_window a t0 t0 eq_refl eq_refl) as (_ & _ & H3 & _).
  split; [exact H2|]. split; [exact H2' | exact H3].
Defined.

(** X16: after [authenticate()] at an instant [t0], [is_token_valid] raises
    [OverflowError] exactly when the expiry [t0 + token_expiry_hours] hours
    falls outside the instants a [datetime] can hold (before year 1 or after
    year 9999), whatever the instant of the check; [get_token] and
    [get_auth_headers] raise it in the same cases. *)
Theorem DevAuth_expiry_overflow (a : DevAuth.t) (t0 now : Z) :
  DevAuth.datetime_in_range t0 = true ->
  let a1 := snd (DevAuth.authenticate t0 a) in
  let expiry := (t0 + DevAuth.token_expiry_hours a * DevAuth.hour_us)%Z in
  (DevAuth.is_token_valid now a1 = DevAuth.OverflowError
   <-> DevAuth.datetime_in_range expiry = false) /\
  (DevAuth.get_token now a1 = DevAuth.OverflowError
   <-> DevAuth.datetime_in_range expiry = false) /\
  (DevAuth.get_auth_headers now a1 = DevAuth.OverflowError
   <-> DevAuth.datetime_in_range expiry = false).
Proof.
  intros H0 a1 expiry.
  assert (V : DevAuth.is_token_valid now a1 = DevAuth.OverflowError
              <-> DevAuth.datetime_in_range expiry = false).
  { unfold a1. rewrite is_token_valid_after_authenticate.
    destruct (DevAuth.timedelta_hours (DevAuth.token_expiry_hours a)) as [d|] eqn:T.
    - destruct (DevAuth.datetime_in_range expiry) eqn:R.
      + rewrite (timedelta_hours_in_range t0 _ H0 R) in T. inversion T. subst d.
        unfold DevAuth.datetime_add. fold expiry. rewrite R.
        split; discriminate.
      + assert (D : d = (DevAuth.token_expiry_hours a * DevAuth.hour_us)%Z).
        { unfold DevAuth.timedelta_hours in T. cbv zeta in T.
          destruct (Z.abs _ <=? 999999999)%Z; now inversion T. }
        subst d. unfold DevAuth.datetime_add. fold expiry. rewrite R.
        split; reflexivity.
    - split; [intros _ | reflexivity].
      now apply timedelta_hours_overflow. }
  split; [exact V|]. split.
  - rewrite <- V. unfold DevAuth.get_token.
    destruct (DevAuth.is_token_valid now a1) as [[|]|]; split;
      (discriminate || reflexivity).
  - rewrite <- V. unfold DevAuth.get_auth_headers, DevAuth.get_token.
    destruct (DevAuth.is_token_valid now a1) as [[|]|]; simpl.
    + destruct (truthy (DevAuth.token a1)); [|split; discriminate].
      destruct (DevAuth.token a1); split; discriminate.
    + split; discriminate.
    + split; reflexivity.
Qed.

(** A [DevAuth] whose tokens last 80 million hours, signed in in 2026. *)
Lemma DevAuth_expiry_overflow_witness :
  let a := DevAuth.__init__ None None 80000000 true in
  let t0 := (739923 * DevAuth.day_us)%Z in
  DevAuth.is_token_valid t0 (snd (DevAuth.authenticate t0 a))
  = DevAuth.OverflowError /\
  DevAuth.get_auth_headers t0 (snd (DevAuth.authenticate t0 a))
  = DevAuth.OverflowError.
Proof.
  intros a t0.
  destruct (DevAuth_expiry_overflow a t0 t0 eq_refl) as (H1 & _ & H3).
  split; [apply H1 | apply H3]; reflexivity.
Defined.

(** X17: [logout()] returns true on every object and signs it out: at every
    later instant the token is not valid, [get_token] and [get_auth_headers]
    return [None], nothing is raised whatever [token_expiry_hours] is, and
    [refresh_token] returns false; the username, the password and the expiry
    are kept, and a second [logout()] changes nothing. *)
Theorem DevAuth_logout (a : DevAuth.t) (now : Z) :
  let a' := snd (DevAuth.logout a) in
  fst (DevAuth.logout a) = true /\
  DevAuth.is_token_valid now a' = DevAuth.Ok false /\
  DevAuth.get_token now a' = DevAuth.Ok None /\
  DevAuth.get_auth_headers now a' = DevAuth.Ok None /\
  DevAuth.refresh_token now a' = (false, a') /\
  DevAuth.logout a' = (true, a') /\
  DevAuth.username a' = DevAuth.username a /\
  DevAuth.password a' = DevAuth.password a /\
  DevAuth.token_expiry_hours a' = DevAuth.token_expiry_hours a.
Proof. intros a'. subst a'. repeat split. Qed.

(** X18: [refresh_token()] does not look at the age of the token.  On an
    object that is signed in it returns true and restarts the period of
    validity at the instant [t1] of the call, so that a token that had
    expired is valid again until [t1 + token_expiry_hours] hours; on an
    object that is not signed in it returns false and changes nothing. *)
Theorem DevAuth_refresh_restarts_the_period
    (a : DevAuth.t) (tok : string) (t1 now : Z) :
  DevAuth.datetime_in_range t1 = true ->
  DevAuth.datetime_in_range
    (t1 + DevAuth.token_expiry_hours a * DevAuth.hour_us) = true ->
  (DevAuth.is_authenticated a = true ->
   DevAuth.token a = Some tok -> tok <> "" ->
   let a1 := snd (DevAuth.refresh_token t1 a) in
   fst (DevAuth.refresh_token t1 a) = true /\
   DevAuth.token a1 = Some tok /\
   DevAuth.is_token_valid now a1
   = DevAuth.Ok (now <? t1 + DevAuth.token_expiry_hours a * DevAuth.hour_us)%Z)
  /\
  (DevAuth.is_authenticated a = false ->
   DevAuth.refresh_token t1 a = (false, a)).
Proof.
  intros H0 H1. split.
  - intros Ha Ht Hn a1. subst a1.
    unfold DevAuth.refresh_token. rewrite Ha. simpl.
    split; [reflexivity|]. split; [exact Ht|].
    unfold DevAuth.is_token_valid. simpl. rewrite ?Ha, Ht. simpl.
    unfold str_truthy. apply String.eqb_neq in Hn. rewrite Hn. simpl.
    rewrite (timedelta_hours_in_range t1 _ H0 H1).
    unfold DevAuth.datetime_add. now rewrite H1.
  - intros Ha. unfold DevAuth.refresh_token. now rewrite Ha.
Qed.

(** Signed in on 2026-11-04, refreshed two days later, a day after the token
    expired. *)
Lemma DevAuth_refresh_restarts_the_period_witness :
  let a := DevAuth.__init__ None None 24 true in
  let t0 := (739923 * DevAuth.day_us)%Z in
  let t1 := (739925 * DevAuth.day_us)%Z in
  let a0 := snd (DevAuth.authenticate t0 a) in
  let a1 := snd (DevAuth.refresh_token t1 a0) in
  DevAuth.is_token_valid t1 a0 = DevAuth.Ok false /\
  fst (DevAuth.refresh_token t1 a0) = true /\
  DevAuth.is_token_valid t1 a1 = DevAuth.Ok true /\
  DevAuth.refresh_token t1 a = (false, a).
Proof.
  intros a t0 t1 a0 a1.
  destruct (DevAuth_refresh_restarts_the_period a0 "dev_token_12345" t1 t1
              eq_refl eq_refl) as (H & _).
  destruct (H eq_refl eq_refl) as (H1 & _ & H3); [discriminate|].
  destruct (DevAuth_refresh_restarts_the_period a "" t1 t1 eq_refl eq_refl)
    as (_ & H').
  split; [reflexivity|]. split; [exact H1|]. split; [exact H3|].
  apply H'. reflexivity.
Defined.

Lemma DevAuth_exec_invariant (c : DevAuth.call) (a : DevAuth.t) :
  (DevAuth.is_authenticated a = true /\
   DevAuth.token a = Some DevAuth.DEFAULT_DEV_TOKEN /\
   DevAuth.token_created_at a <> None) \/
  (DevAuth.is_authenticated a = false /\
   DevAuth.token a = None /\ DevAuth.token_created_at a = None) ->
  let a' := DevAuth.exec c a in
  ((DevAuth.is_authenticated a' = true /\
    DevAuth.token a' = Some DevAuth.DEFAULT_DEV_TOKEN /\
    DevAuth.token_created_at a' <> None) \/
   (DevAuth.is_authenticated a' = false /\
    DevAuth.token a' = None /\ DevAuth.token_created_at a' = None)) /\
  DevAuth.username a' = DevAuth.username a /\
  DevAuth.password a' = DevAuth.password a /\
  DevAuth.token_expiry_hours a' = DevAuth.token_expiry_hours a.
Proof.
  intros I a'. subst a'. destruct c as [now|now|]; simpl.
  - repeat split. left. repeat split. discriminate.
  - unfold DevAuth.refresh_token.
    destruct I as [(Ha & Ht & Hc)|(Ha & Ht & Hc)]; rewrite Ha; simpl.
    + repeat split. left. repeat split; auto. discriminate.
    + repeat split. right. auto.
  - repeat split. right. auto.
Qed.

(** X19: whatever calls of [authenticate], [refresh_token] and [logout] are
    made on a new [DevAuth], the object is either signed in, with the token
    ["dev_token_12345"] and an instant of creation, or signed out, with
    neither; its username, password and expiry are the ones it was built
    with; and when [get_auth_headers] returns headers they are
    [Authorization: Bearer dev_token_12345] and [X-Dev-Auth: true]. *)
Theorem DevAuth_reachable_objects
    (u p : option string) (h : Z) (d : bool) (cs : list DevAuth.call)
    (now : Z) :
  let a := DevAuth.run cs (DevAuth.__init__ u p h d) in
  ((DevAuth.is_authenticated a = true /\
    DevAuth.token a = Some "dev_token_12345" /\
    DevAuth.token_created_at a <> None) \/
   (DevAuth.is_authenticated a = false /\
    DevAuth.token a = None /\ DevAuth.token_created_at a = None)) /\
  DevAuth.username a = DevAuth.username (DevAuth.__init__ u p h d) /\
  DevAuth.password a = DevAuth.password (DevAuth.__init__ u p h d) /\
  DevAuth.token_expiry_hours a = h /\
  (forall headers,
     DevAuth.get_auth_headers now a = DevAuth.Ok (Some headers) ->
     headers = [("Authorization", "Bearer dev_token_12345");
                ("X-Dev-Auth", "true")]).
Proof.
  intros a.
  assert (G : forall a0,
            (DevAuth.is_authenticated a0 = true /\
             DevAuth.token a0 = Some DevAuth.DEFAULT_DEV_TOKEN /\
             DevAuth.token_created_at a0 <> None) \/
            (DevAuth.is_authenticated a0 = false /\
             DevAuth.token a0 = None /\ DevAuth.token_created_at a0 = None) ->
            let a' := DevAuth.run cs a0 in
            ((DevAuth.is_authenticated a' = true /\
              DevAuth.token a' = Some DevAuth.DEFAULT_DEV_TOKEN /\
              DevAuth.token_created_at a' <> None) \/
             (DevAuth.is_authenticated a' = false /\
              DevAuth.token a' = None /\ DevAuth.token_created_at a' = None)) /\
            DevAuth.username a' = DevAuth.username a0 /\
            DevAuth.password a' = DevAuth.password a0 /\
            DevAuth.token_expiry_hours a' = DevAuth.token_expiry_hours a0).
  { unfold DevAuth.run. induction cs as [|c cs IH]; intros a0 I; simpl.
    - auto.
    - destruct (DevAuth_exec_invariant c a0 I) as (I' & E1 & E2 & E3).
      destruct (IH (DevAuth.exec c a0) I') as (J & F1 & F2 & F3).
      split; [exact J|]. rewrite F1, F2, F3. auto. }
  destruct (G (DevAuth.__init__ u p h d)) as (I & E1 & E2 & E3).
  { right. repeat split. }
  fold a in I, E1, E2, E3.
  split; [exact I|]. split; [exact E1|]. split; [exact E2|].
  split; [exact E3|].
  intros headers. unfold DevAuth.get_auth_headers, DevAuth.get_token.
  destruct (DevAuth.is_token_valid now a) as [[|]|]; simpl; try discriminate.
  destruct I as [(_ & Ht & _)|(_ & Ht & _)]; rewrite Ht; simpl.
  - intros H. now inversion H.
  - discriminate.
Qed.

Lemma DevAuth_reachable_objects_witness :
  let a :=
    DevAuth.run
      [DevAuth.Call_authenticate (739923 * DevAuth.day_us)%Z;
       DevAuth.Call_logout;
       DevAuth.Call_authenticate (739923 * DevAuth.day_us + 1)%Z;
       DevAuth.Call_refresh_token (739923 * DevAuth.day_us + 2)%Z]
      (DevAuth.__init__ (Some "ana") None 1 false) in
  DevAuth.username a = "ana" /\
  exists headers,
    DevAuth.get_auth_headers (739923 * DevAuth.day_us + 5)%Z a
    = DevAuth.Ok (Some headers) /\
    headers = [("Authorization", "Bearer dev_token_12345");
               ("X-Dev-Auth", "true")].
Proof.
  intros a.
  destruct (DevAuth_reachable_objects (Some "ana") None 1 false
              [DevAuth.Call_authenticate (739923 * DevAuth.day_us)%Z;
               DevAuth.Call_logout;
               DevAuth.Call_authenticate (739923 * DevAuth.day_us + 1)%Z;
               DevAuth.Call_refresh_token (739923 * DevAuth.day_us + 2)%Z]
              (739923 * DevAuth.day_us + 5)%Z)
    as (_ & H2 & _ & _ & H5).
  split; [exact H2|].
  eexists. split; [reflexivity|]. apply H5. reflexivity.
Defined.

(* ------------------------------------------------------------------ *)
(** ** The parser: video ids *)

Lemma run_repeat_class (p : ascii -> bool) (n : nat) :
  forall st,
    YouTubeParser.run_regex
      (YouTubeParser.Repeat n (YouTubeParser.Class p)) st
    = match take_class p n (YouTubeParser.rest st) with
      | Some s' =>
          [YouTubeParser.mkM (YouTubeParser.pos st + n) s'
             (YouTubeParser.group1 st)]
      | None => []
      end.
Proof.
  induction n as [|n IH]; intros [ps s g]; simpl.
  - now rewrite Nat.add_0_r.
  - destruct s as [|c s]; simpl; [reflexivity|].
    destruct (p c); simpl; [|reflexivity].
    rewrite app_nil_r. simpl in IH. rewrite IH. simpl.
    now rewrite Nat.add_succ_r.
Qed.

Lemma take_class_split (p : ascii -> bool) (n : nat) :
  forall s s',
    take_class p n s = Some s' <->
    exists v, s = v ++ s' /\ String.length v = n /\
              forallb p (list_ascii_of_string v) = true.
Proof.
  induction n as [|n IH]; intros s s'; simpl.
  - split.
    + intros H. inversion H. exists "". auto.
    + intros [v (E & L & _)]. destruct v; [|discriminate]. now subst.
  - destruct s as [|c s].
    + split; [discriminate|]. intros [v (E & L & _)].
      destruct v; discriminate.
    + destruct (p c) eqn:P.
      * rewrite IH. split.
        -- intros [v (E & L & F)]. exists (String c v). simpl.
           rewrite P, F, L, E. auto.
        -- intros [v (E & L & F)]. destruct v as [|b v]; [discriminate|].
           simpl in *. inversion E. subst b s. rewrite P in F.
           exists v. auto.
      * split; [discriminate|]. intros [v (E & L & F)].
        destruct v as [|b v]; [discriminate|]. simpl in *.
        inversion E. subst b. now rewrite P in F.
Qed.

Lemma substring_app_length (v s : string) :
  substring 0 (String.length v) (v ++ s) = v.
Proof.
  induction v as [|c v IH]; simpl.
  - now destruct s.
  - now rewrite IH.
Qed.

Lemma take_class_video_id (v s : string) :
  is_video_id v = true ->
  take_class YouTubeParser.id_char 11 (v ++ s) = Some s.
Proof.
  unfold is_video_id. intros H. apply andb_true_iff in H. destruct H as [L F].
  apply Nat.eqb_eq in L. apply take_class_split. exists v. auto.
Qed.

Lemma run_id_group (st : YouTubeParser.mstate) :
  YouTubeParser.run_regex YouTubeParser.id_group st
  = match take_class YouTubeParser.id_char 11 (YouTubeParser.rest st) with
    | Some s' =>
        [YouTubeParser.mkM (YouTubeParser.pos st + 11) s'
           (Some (substring 0 11 (YouTubeParser.rest st)))]
    | None => []
    end.
Proof.
  unfold YouTubeParser.id_group.
  change (YouTubeParser.run_regex (YouTubeParser.Group ?r) st)
    with (map (fun st' =>
                 YouTubeParser.mkM (YouTubeParser.pos st') (YouTubeParser.rest st')
                   (Some (substring 0 (YouTubeParser.pos st' - YouTubeParser.pos st)
                            (YouTubeParser.rest st))))
              (YouTubeParser.run_regex r st)).
  rewrite run_repeat_class.
  destruct (take_class _ 11 _); simpl; [|reflexivity].
  now replace (YouTubeParser.pos st + 11 - YouTubeParser.pos st) with 11 by lia.
Qed.

Lemma run_id_group_video_id (ps : nat) (v s : string) (g : option string) :
  is_video_id v = true ->
  YouTubeParser.run_regex YouTubeParser.id_group (YouTubeParser.mkM ps (v ++ s) g)
  = [YouTubeParser.mkM (ps + 11) s (Some v)].
Proof.
  intros H. rewrite run_id_group.
  cbn [YouTubeParser.rest YouTubeParser.pos YouTubeParser.group1].
  rewrite (take_class_video_id v s H).
  unfold is_video_id in H. apply andb_true_iff in H. destruct H as [L _].
  apply Nat.eqb_eq in L. rewrite <- L at 2. now rewrite substring_app_length.
Qed.

Lemma run_seq (r1 r2 : YouTubeParser.regex) (st : YouTubeParser.mstate) :
  YouTubeParser.run_regex (YouTubeParser.Seq r1 r2) st
  = flat_map (YouTubeParser.run_regex r2) (YouTubeParser.run_regex r1 st).
Proof. reflexivity. Qed.

Lemma run_opt (r : YouTubeParser.regex) (st : YouTubeParser.mstate) :
  YouTubeParser.run_regex (YouTubeParser.Opt r) st
  = (YouTubeParser.run_regex r st ++ [st])%list.
Proof. reflexivity. Qed.

Lemma run_lit (l : string) (st : YouTubeParser.mstate) :
  YouTubeParser.run_regex (YouTubeParser.Lit l) st
  = match YouTubeParser.strip_prefix l (YouTubeParser.rest st) with
    | Some s' =>
        [YouTubeParser.mkM (YouTubeParser.pos st + String.length l) s'
           (YouTubeParser.group1 st)]
    | None => []
    end.
Proof. reflexivity. Qed.

Lemma flat_map_one {A B : Type} (f : A -> list B) (x : A) :
  flat_map f [x] = f x.
Proof. simpl. apply app_nil_r. Qed.

Lemma is_valid_video_id_take (s : string) :
  YouTubeParser.is_valid_video_id s
  = match take_class YouTubeParser.id_char 11 s with
    | Some EmptyString => true
    | Some (String c EmptyString) => Ascii.eqb c YouTubeParser.newline
    | _ => false
    end.
Proof.
  unfold YouTubeParser.is_valid_video_id, YouTubeParser.re_match.
  change (Dict.get "video_id_only" YouTubeParser.PATTERNS)
    with (Some (YouTubeParser.Seq YouTubeParser.Bol
                  (YouTubeParser.Seq YouTubeParser.id_group YouTubeParser.Eol))).
  cbv iota. rewrite run_seq.
  change (YouTubeParser.run_regex YouTubeParser.Bol
            (YouTubeParser.mkM 0 s None))
    with [YouTubeParser.mkM 0 s None].
  rewrite flat_map_one, run_seq, run_id_group.
  cbn [YouTubeParser.rest YouTubeParser.pos YouTubeParser.group1].
  destruct s as [|c0 s0]; [reflexivity|].
  change (negb (str_truthy (String c0 s0))) with false. cbv iota.
  destruct (take_class YouTubeParser.id_char 11 (String c0 s0))
    as [[|c [|c' s']]|]; try reflexivity.
  rewrite flat_map_one. simpl.
  destruct (Ascii.eqb c YouTubeParser.newline); reflexivity.
Qed.

(** X20: [is_valid_video_id] accepts exactly the strings made of eleven
    characters among letters, digits, [_] and [-], and those strings followed
    by one newline (the [$] of the pattern also matches before a final
    newline); the empty string and everything else are refused. *)
Theorem is_valid_video_id_spec (s : string) :
  YouTubeParser.is_valid_video_id s = true
  <-> exists v, is_video_id v = true /\
                (s = v \/ s = v ++ String YouTubeParser.newline "").
Proof.
  rewrite is_valid_video_id_take. split.
  - destruct (take_class YouTubeParser.id_char 11 s) as [[|c [|c' s']]|] eqn:T;
      try discriminate.
    + intros _. apply take_class_split in T. destruct T as [v (E & L & F)].
      exists v. split.
      * unfold is_video_id. rewrite L, F. reflexivity.
      * left. subst s. clear. induction v; simpl; congruence.
    + intros N. apply Ascii.eqb_eq in N. subst c.
      apply take_class_split in T. destruct T as [v (E & L & F)].
      exists v. split; [|now right].
      unfold is_video_id. rewrite L, F. reflexivity.
  - intros [v (I & [E|E])]; subst s.
    + replace v with (v ++ "") by (clear; induction v; simpl; congruence).
      now rewrite (take_class_video_id v "" I).
    + rewrite (take_class_video_id v _ I). apply Ascii.eqb_refl.
Qed.

Lemma is_valid_video_id_spec_witness :
  YouTubeParser.is_valid_video_id "dQw4w9WgXcQ" = true /\
  YouTubeParser.is_valid_video_id
    ("dQw4w9WgXcQ" ++ String YouTubeParser.newline "") = true /\
  YouTubeParser.is_valid_video_id "invalid" = false.
Proof.
  split; [|split].
  - apply (proj2 (is_valid_video_id_spec "dQw4w9WgXcQ")).
    exists "dQw4w9WgXcQ". split; [reflexivity | now left].
  - apply (proj2 (is_valid_video_id_spec
                    ("dQw4w9WgXcQ" ++ String YouTubeParser.newline ""))).
    exists "dQw4w9WgXcQ". split; [reflexivity | now right].
  - reflexivity.
Defined.

(* ------------------------------------------------------------------ *)
(** ** The parser: from a video id to a URL and back *)

Lemma id_char_facts (c : ascii) :
  YouTubeParser.id_char c = true ->
  YouTubeParser.isspace c = false /\
  Ascii.eqb "/"%char c = false /\
  Ascii.eqb "="%char c = false /\
  Ascii.eqb c YouTubeParser.newline = false.
Proof.
  destruct c as [[] [] [] [] [] [] [] []]; vm_compute; intros H;
    try discriminate H; repeat split.
Qed.

Lemma has_char_app (c : ascii) (s t : string) :
  has_char c (s ++ t) = has_char c s || has_char c t.
Proof.
  induction s as [|b s IH]; simpl; [reflexivity|].
  now rewrite IH, orb_assoc.
Qed.

Lemma strip_prefix_app (l s s' : string) :
  YouTubeParser.strip_prefix l s = Some s' -> s = l ++ s'.
Proof.
  revert s. induction l as [|a l IH]; intros s; simpl.
  - intros H. now inversion H.
  - destruct s as [|b s]; [discriminate|].
    destruct (Ascii.eqb a b) eqn:E; [|discriminate].
    apply Ascii.eqb_eq in E. subst b. intros H. now rewrite (IH s H).
Qed.

Lemma run_lit_clean (c : ascii) (l : string) (st : YouTubeParser.mstate) :
  clean c st ->
  Forall (clean c) (YouTubeParser.run_regex (YouTubeParser.Lit l) st) /\
  (has_char c l = true ->
   YouTubeParser.run_regex (YouTubeParser.Lit l) st = []).
Proof.
  unfold clean. intros C. rewrite run_lit.
  destruct (YouTubeParser.strip_prefix l (YouTubeParser.rest st)) as [s'|] eqn:E.
  - apply strip_prefix_app in E. rewrite E, has_char_app in C.
    apply orb_false_iff in C. destruct C as [C1 C2]. split.
    + constructor; [exact C2 | constructor].
    + intros H. congruence.
  - split; [constructor | reflexivity].
Qed.

Lemma flat_map_nil {A B : Type} (f : A -> list B) (l : list A) :
  Forall (fun x => f x = []) l -> flat_map f l = [].
Proof.
  induction 1 as [|x l H _ IH]; simpl; [reflexivity|]. now rewrite H, IH.
Qed.

Lemma dotstar_clean (c : ascii) (s : string) :
  forall p g,
    has_char c s = false -> Forall (clean c) (YouTubeParser.dotstar p s g).
Proof.
  induction s as [|b s IH]; intros p g C; simpl.
  - constructor; [exact C | constructor].
  - destruct (Ascii.eqb b YouTubeParser.newline).
    + constructor; [exact C | constructor].
    + apply Forall_app. split.
      * apply IH. simpl in C. now apply orb_false_iff in C.
      * constructor; [exact C | constructor].
Qed.

(** A pattern [(?:https?://)?(?:www\.)?l...] whose literal [l] has a slash
    matches nowhere in a text without slash. *)
Lemma url_head_needs_slash
    (l : string) (r : YouTubeParser.regex) (st : YouTubeParser.mstate) :
  has_char "/" l = true ->
  clean "/" st ->
  YouTubeParser.run_regex
    (YouTubeParser.url_head (YouTubeParser.Seq (YouTubeParser.Lit l) r)) st = [].
Proof.
  intros L C. unfold YouTubeParser.url_head. rewrite run_seq.
  apply flat_map_nil. rewrite run_opt. apply Forall_app. split.
  - rewrite run_seq.
    destruct (run_lit_clean "/" "http" st C) as [F _].
    rewrite (flat_map_nil _ _); [constructor|].
    eapply Forall_impl; [|exact F]. intros x Cx. rewrite run_seq.
    apply flat_map_nil. rewrite run_opt. apply Forall_app. split.
    + destruct (run_lit_clean "/" "s" x Cx) as [F' _].
      eapply Forall_impl; [|exact F']. intros y Cy.
      now apply (run_lit_clean "/" "://" y Cy).
    + constructor; [|constructor]. now apply (run_lit_clean "/" "://" x Cx).
  - constructor; [|constructor]. rewrite run_seq. apply flat_map_nil.
    rewrite run_opt. apply Forall_app. split.
    + destruct (run_lit_clean "/" "www." st C) as [F _].
      eapply Forall_impl; [|exact F]. intros y Cy. rewrite run_seq.
      now rewrite (proj2 (run_lit_clean "/" l y Cy) L).
    + constructor; [|constructor]. rewrite run_seq.
      now rewrite (proj2 (run_lit_clean "/" l st C) L).
Qed.

Lemma search_from_needs_slash
    (l : string) (r : YouTubeParser.regex) (s : string) :
  has_char "/" l = true ->
  forall p,
    has_char "/" s = false ->
    YouTubeParser.search_from
      (YouTubeParser.url_head (YouTubeParser.Seq (YouTubeParser.Lit l) r)) p s
    = None.
Proof.
  intros L. induction s as [|b s IH]; intros p C.
  - cbn [YouTubeParser.search_from].
    now rewrite (url_head_needs_slash l r (YouTubeParser.mkM p "" None) L C).
  - cbn [YouTubeParser.search_from].
    rewrite (url_head_needs_slash l r
               (YouTubeParser.mkM p (String b s) None) L C).
    apply IH. simpl in C. now apply orb_false_iff in C.
Qed.

Lemma video_id_chars (v : string) (c : ascii) :
  is_video_id v = true ->
  (forall b, YouTubeParser.id_char b = true -> Ascii.eqb c b = false) ->
  has_char c v = false.
Proof.
  unfold is_video_id. intros H N. apply andb_true_iff in H. destruct H as [_ F].
  induction v as [|b v IH]; simpl in *; [reflexivity|].
  apply andb_true_iff in F. destruct F as [F1 F2].
  now rewrite (N b F1), (IH F2).
Qed.

Lemma video_id_no_slash (v : string) :
  is_video_id v = true -> has_char "/" v = false.
Proof.
  intros H. apply (video_id_chars v "/" H).
  intros b B. now apply id_char_facts in B.
Qed.

Lemma video_id_no_equal (v : string) :
  is_video_id v = true -> has_char "=" v = false.
Proof.
  intros H. apply (video_id_chars v "=" H).
  intros b B. now apply id_char_facts in B.
Qed.

Lemma app_empty_r (s : string) : s ++ "" = s.
Proof. induction s; simpl; congruence. Qed.

Lemma run_id_group_video_id_end (ps : nat) (v : string) (g : option string) :
  is_video_id v = true ->
  YouTubeParser.run_regex YouTubeParser.id_group (YouTubeParser.mkM ps v g)
  = [YouTubeParser.mkM (ps + 11) "" (Some v)].
Proof.
  intros H. rewrite <- (app_empty_r v) at 1.
  now apply run_id_group_video_id.
Qed.

Lemma search_from_step
    (r : YouTubeParser.regex) (p : nat) (c : ascii) (s : string) :
  YouTubeParser.run_regex r (YouTubeParser.mkM p (String c s) None) = [] ->
  YouTubeParser.search_from r p (String c s)
  = YouTubeParser.search_from r (S p) s.
Proof. intros H. cbn [YouTubeParser.search_from]. now rewrite H. Qed.

Lemma search_from_hit
    (r : YouTubeParser.regex) (p : nat) (s : string)
    (x : YouTubeParser.mstate) (l : list YouTubeParser.mstate) :
  YouTubeParser.run_regex r (YouTubeParser.mkM p s None) = x :: l ->
  YouTubeParser.search_from r p s = Some x.
Proof.
  intros H. destruct s; cbn [YouTubeParser.search_from]; now rewrite H.
Qed.

Lemma rstrip_nonspace (t : string) :
  forallb (fun c => negb (YouTubeParser.isspace c)) (list_ascii_of_string t)
  = true ->
  YouTubeParser.rstrip t = t.
Proof.
  induction t as [|c t IH]; simpl; [reflexivity|].
  intros H. apply andb_true_iff in H. destruct H as [H1 H2].
  rewrite (IH H2). apply negb_true_iff in H1. rewrite H1. now destruct t.
Qed.

Lemma rstrip_app_kept (s t : string) :
  YouTubeParser.rstrip t = t -> t <> "" ->
  YouTubeParser.rstrip (s ++ t) = s ++ t.
Proof.
  intros R N. induction s as [|c s IH]; simpl; [exact R|].
  rewrite IH. destruct (s ++ t) eqn:E; [|reflexivity].
  destruct s; simpl in E; [contradiction | discriminate].
Qed.

Lemma video_id_rstrip (v : string) :
  is_video_id v = true -> YouTubeParser.rstrip v = v /\ v <> "".
Proof.
  unfold is_video_id. intros H. apply andb_true_iff in H. destruct H as [L F].
  split.
  - apply rstrip_nonspace. clear L. induction v as [|c v IH]; simpl in *; auto.
    apply andb_true_iff in F. destruct F as [F1 F2].
    apply id_char_facts in F1. destruct F1 as [F1 _]. rewrite F1. simpl. auto.
  - intros E. subst v. discriminate L.
Qed.

Lemma video_id_lstrip (v : string) :
  is_video_id v = true -> YouTubeParser.lstrip v = v.
Proof.
  unfold is_video_id. intros H. apply andb_true_iff in H. destruct H as [L F].
  destruct v as [|c v]; [reflexivity|]. simpl in *.
  apply andb_true_iff in F. destruct F as [F1 _].
  apply id_char_facts in F1. destruct F1 as [F1 _]. now rewrite F1.
Qed.

(** After [watch?], on [v=] and a video id: [.*] runs to the end and gives
    back until [v=] matches, which it does at the start only. *)
Lemma run_dotstar_v (p : nat) (v : string) (g : option string) :
  is_video_id v = true ->
  YouTubeParser.run_regex
    (YouTubeParser.Seq YouTubeParser.DotStar
       (YouTubeParser.Seq (YouTubeParser.Lit "v=") YouTubeParser.id_group))
    (YouTubeParser.mkM p ("v=" ++ v) g)
  = [YouTubeParser.mkM (p + 2 + 11) "" (Some v)].
Proof.
  intros H. rewrite run_seq.
  change (YouTubeParser.run_regex YouTubeParser.DotStar
            (YouTubeParser.mkM p ("v=" ++ v) g))
    with ((YouTubeParser.dotstar (S (S p)) v g
           ++ [YouTubeParser.mkM (S p) ("=" ++ v) g])
          ++ [YouTubeParser.mkM p ("v=" ++ v) g])%list.
  rewrite !flat_map_app, !flat_map_one.
  rewrite (flat_map_nil _ (YouTubeParser.dotstar _ _ _)).
  - rewrite !run_seq.
    change (YouTubeParser.run_regex (YouTubeParser.Lit "v=")
              (YouTubeParser.mkM (S p) ("=" ++ v) g))
      with (@nil YouTubeParser.mstate).
    change (YouTubeParser.run_regex (YouTubeParser.Lit "v=")
              (YouTubeParser.mkM p ("v=" ++ v) g))
      with [YouTubeParser.mkM (p + 2) v g].
    rewrite flat_map_one. simpl flat_map. simpl app.
    now apply run_id_group_video_id_end.
  - eapply Forall_impl;
      [|apply (dotstar_clean "=" v (S (S p)) g (video_id_no_equal v H))].
    intros x Cx. rewrite run_seq.
    now rewrite (proj2 (run_lit_clean "=" "v=" x Cx) eq_refl).
Qed.

(** A search that fails on every index of the known prefix of the text and
    then on the video id, which has no slash. *)
Ltac search_misses :=
  unfold YouTubeParser.re_search; simpl append;
  repeat (rewrite search_from_step by (vm_compute; reflexivity));
  apply search_from_needs_slash; [reflexivity | now apply video_id_no_slash].

(** A search that succeeds at index 0, on a pattern that ends with the group
    right after its literal. *)
Ltac search_hits H :=
  unfold YouTubeParser.re_search; simpl append;
  cbn -[YouTubeParser.id_group];
  rewrite (run_id_group_video_id_end _ _ _ H); reflexivity.

Lemma strip_url (c : ascii) (b v : string) :
  YouTubeParser.isspace c = false ->
  is_video_id v = true ->
  YouTubeParser.strip (String c b ++ v) = String c b ++ v.
Proof.
  intros N H. unfold YouTubeParser.strip.
  simpl append. cbn [YouTubeParser.lstrip]. rewrite N.
  destruct (video_id_rstrip v H).
  now apply (rstrip_app_kept (String c b) v).
Qed.

Lemma extract_video_url (v : string) :
  is_video_id v = true ->
  YouTubeParser.extract_video_id ("https://www.youtube.com/watch?v=" ++ v)
  = Some v.
Proof.
  intros H. unfold YouTubeParser.extract_video_id.
  change (negb (str_truthy ("https://www.youtube.com/watch?v=" ++ v)))
    with false.
  cbv iota. rewrite strip_url; [|reflexivity | exact H].
  unfold YouTubeParser.PATTERNS. cbn [YouTubeParser.first_match].
  replace (YouTubeParser.re_search _ _)
    with (Some (YouTubeParser.mkM 43 "" (Some v))); [reflexivity|].
  symmetry. unfold YouTubeParser.re_search.
  assert (E : forall r s,
             YouTubeParser.run_regex
               (YouTubeParser.url_head
                  (YouTubeParser.Seq (YouTubeParser.Lit "youtube.com/watch?") r))
               (YouTubeParser.mkM 0 ("https://www.youtube.com/watch?" ++ s) None)
             = YouTubeParser.run_regex r (YouTubeParser.mkM 30 s None)).
  { intros r s. cbn. now rewrite !app_nil_r. }
  apply search_from_hit with (l := []).
  change ("https://www.youtube.com/watch?v=" ++ v)
    with ("https://www.youtube.com/watch?" ++ ("v=" ++ v)).
  rewrite E. now apply run_dotstar_v.
Qed.

Lemma extract_short_url (v : string) :
  is_video_id v = true ->
  YouTubeParser.extract_video_id ("https://youtu.be/" ++ v) = Some v.
Proof.
  intros H. unfold YouTubeParser.extract_video_id.
  change (negb (str_truthy ("https://youtu.be/" ++ v))) with false.
  cbv iota. rewrite strip_url; [|reflexivity | exact H].
  unfold YouTubeParser.PATTERNS. cbn [YouTubeParser.first_match].
  replace (YouTubeParser.re_search _ _) with (@None YouTubeParser.mstate)
    by (symmetry; search_misses).
  replace (YouTubeParser.re_search _ _)
    with (Some (YouTubeParser.mkM 28 "" (Some v)))
    by (symmetry; search_hits H).
  reflexivity.
Qed.

Lemma extract_embed_url (v : string) :
  is_video_id v = true ->
  YouTubeParser.extract_video_id ("https://www.youtube.com/embed/" ++ v)
  = Some v.
Proof.
  intros H. unfold YouTubeParser.extract_video_id.
  change (negb (str_truthy ("https://www.youtube.com/embed/" ++ v))) with false.
  cbv iota. rewrite strip_url; [|reflexivity | exact H].
  unfold YouTubeParser.PATTERNS. cbn [YouTubeParser.first_match].
  replace (YouTubeParser.re_search _ _) with (@None YouTubeParser.mstate)
    by (symmetry; search_misses).
  replace (YouTubeParser.re_search _ _) with (@None YouTubeParser.mstate)
    by (symmetry; search_misses).
  replace (YouTubeParser.re_search _ _)
    with (Some (YouTubeParser.mkM 41 "" (Some v)))
    by (symmetry; search_hits H).
  reflexivity.
Qed.

Lemma extract_nocookie_url (v : string) :
  is_video_id v = true ->
  YouTubeParser.extract_video_id
    ("https://www.youtube-nocookie.com/embed/" ++ v)
  = Some v.
Proof.
  intros H. unfold YouTubeParser.extract_video_id.
  change (negb (str_truthy ("https://www.youtube-nocookie.com/embed/" ++ v)))
    with false.
  cbv iota. rewrite strip_url; [|reflexivity | exact H].
  unfold YouTubeParser.PATTERNS. cbn [YouTubeParser.first_match].
  replace (YouTubeParser.re_search _ _) with (@None YouTubeParser.mstate)
    by (symmetry; search_misses).
  replace (YouTubeParser.re_search _ _) with (@None YouTubeParser.mstate)
    by (symmetry; search_misses).
  replace (YouTubeParser.re_search _ _) with (@None YouTubeParser.mstate)
    by (symmetry; search_misses).
  replace (YouTubeParser.re_search _ _)
    with (Some (YouTubeParser.mkM 50 "" (Some v)))
    by (symmetry; search_hits H).
  reflexivity.
Qed.

Lemma extract_bare_id (v : string) :
  is_video_id v = true -> YouTubeParser.extract_video_id v = Some v.
Proof.
  intros H. unfold YouTubeParser.extract_video_id.
  destruct (video_id_rstrip v H) as [R N].
  destruct v as [|c v0] eqn:V; [contradiction|].
  change (negb (str_truthy (String c v0))) with false. cbv iota.
  rewrite <- V in *. unfold YouTubeParser.strip.
  rewrite (video_id_lstrip v H), R.
  unfold YouTubeParser.PATTERNS. cbn [YouTubeParser.first_match].
  unfold YouTubeParser.re_search.
  rewrite !search_from_needs_slash
    by (reflexivity || now apply video_id_no_slash).
  rewrite (search_from_hit _ 0 v (YouTubeParser.mkM 11 "" (Some v)) []);
    [reflexivity|].
  rewrite run_seq.
  change (YouTubeParser.run_regex YouTubeParser.Bol (YouTubeParser.mkM 0 v None))
    with [YouTubeParser.mkM 0 v None].
  rewrite flat_map_one, run_seq, (run_id_group_video_id_end 0 v None H).
  reflexivity.
Qed.

Lemma video_id_is_valid (v : string) :
  is_video_id v = true -> YouTubeParser.is_valid_video_id v = true.
Proof.
  intros H. rewrite is_valid_video_id_take.
  rewrite <- (app_empty_r v). now rewrite (take_class_video_id v "" H).
Qed.

Lemma base_urls_cases (t base : string) :
  Dict.get t YouTubeParser.BASE_URLS = Some base ->
  (t = "video" /\ base = "https://www.youtube.com/watch?v=") \/
  (t = "short" /\ base = "https://youtu.be/") \/
  (t = "embed" /\ base = "https://www.youtube.com/embed/") \/
  (t = "nocookie" /\ base = "https://www.youtube-nocookie.com/embed/").
Proof.
  unfold YouTubeParser.BASE_URLS. cbn [Dict.get].
  destruct (String.eqb t "video") eqn:E1.
  { apply String.eqb_eq in E1. intros H. inversion H. auto. }
  destruct (String.eqb t "short") eqn:E2.
  { apply String.eqb_eq in E2. intros H. inversion H. auto. }
  destruct (String.eqb t "embed") eqn:E3.
  { apply String.eqb_eq in E3. intros H. inversion H. auto. }
  destruct (String.eqb t "nocookie") eqn:E4.
  { apply String.eqb_eq in E4. intros H. inversion H. auto 6. }
  discriminate.
Qed.

(** X21: for a video id [v] (eleven characters among letters, digits, [_]
    and [-]) and each url type of [BASE_URLS], [generate_url] returns the
    base URL followed by [v], and [extract_video_id] finds [v] again in that
    URL; [extract_video_id] also returns [v] on [v] itself. *)
Theorem generate_url_then_extract (v t base : string) :
  is_video_id v = true ->
  Dict.get t YouTubeParser.BASE_URLS = Some base ->
  YouTubeParser.generate_url v t = Some (base ++ v) /\
  YouTubeParser.extract_video_id (base ++ v) = Some v /\
  YouTubeParser.extract_video_id v = Some v.
Proof.
  intros H B. split; [|split].
  - unfold YouTubeParser.generate_url.
    now rewrite (video_id_is_valid v H), B.
  - destruct (base_urls_cases t base B)
      as [[_ E]|[[_ E]|[[_ E]|[_ E]]]]; subst base.
    + now apply extract_video_url.
    + now apply extract_short_url.
    + now apply extract_embed_url.
    + now apply extract_nocookie_url.
  - now apply extract_bare_id.
Qed.

Lemma generate_url_then_extract_witness :
  YouTubeParser.generate_url "dQw4w9WgXcQ" "nocookie"
  = Some "https://www.youtube-nocookie.com/embed/dQw4w9WgXcQ" /\
  YouTubeParser.extract_video_id
    "https://www.youtube-nocookie.com/embed/dQw4w9WgXcQ"
  = Some "dQw4w9WgXcQ" /\
  YouTubeParser.extract_video_id "dQw4w9WgXcQ" = Some "dQw4w9WgXcQ".
Proof.
  apply (generate_url_then_extract "dQw4w9WgXcQ" "nocookie"
           "https://www.youtube-nocookie.com/embed/"); reflexivity.
Defined.

(* ------------------------------------------------------------------ *)
(** ** The parser: what extract_video_id returns *)

Lemma search_from_in (r : YouTubeParser.regex) (s : string) :
  forall p x,
    YouTubeParser.search_from r p s = Some x ->
    exists st, In x (YouTubeParser.run_regex r st).
Proof.
  induction s as [|c s IH]; intros p x; cbn [YouTubeParser.search_from].
  - destruct (YouTubeParser.run_regex r (YouTubeParser.mkM p "" None))
      as [|y l] eqn:E; [discriminate|].
    intros H. inversion H. subst y. eexists. rewrite E. now left.
  - destruct (YouTubeParser.run_regex r (YouTubeParser.mkM p (String c s) None))
      as [|y l] eqn:E.
    + apply IH.
    + intros H. inversion H. subst y. eexists. rewrite E. now left.
Qed.

Lemma seq_in (r1 r2 : YouTubeParser.regex) (st x : YouTubeParser.mstate) :
  In x (YouTubeParser.run_regex (YouTubeParser.Seq r1 r2) st) ->
  exists st', In x (YouTubeParser.run_regex r2 st').
Proof.
  rewrite run_seq, in_flat_map. intros [st' [_ H]]. eauto.
Qed.

Lemma url_head_in (r : YouTubeParser.regex) (st x : YouTubeParser.mstate) :
  In x (YouTubeParser.run_regex (YouTubeParser.url_head r) st) ->
  exists st', In x (YouTubeParser.run_regex r st').
Proof.
  unfold YouTubeParser.url_head. intros H.
  apply seq_in in H. destruct H as [st1 H].
  apply seq_in in H. exact H.
Qed.

Lemma id_group_in (st x : YouTubeParser.mstate) :
  In x (YouTubeParser.run_regex YouTubeParser.id_group st) ->
  exists v, YouTubeParser.group1 x = Some v /\ is_video_id v = true.
Proof.
  rewrite run_id_group.
  destruct (take_class YouTubeParser.id_char 11 (YouTubeParser.rest st))
    as [s'|] eqn:T; [|intros []].
  intros [E|[]]. subst x. cbn [YouTubeParser.group1].
  apply take_class_split in T. destruct T as [v (E & L & F)].
  exists v. split.
  - rewrite E, <- L. now rewrite substring_app_length.
  - unfold is_video_id. now rewrite L, F.
Qed.

Lemma patterns_capture_video_ids (name : string) (r : YouTubeParser.regex)
    (st x : YouTubeParser.mstate) :
  In (name, r) YouTubeParser.PATTERNS ->
  In x (YouTubeParser.run_regex r st) ->
  exists v, YouTubeParser.group1 x = Some v /\ is_video_id v = true.
Proof.
  unfold YouTubeParser.PATTERNS.
  intros [E|[E|[E|[E|[E|[]]]]]]; inversion E; subst name r; clear E; intros H.
  - apply url_head_in in H. destruct H as [s1 H].
    apply seq_in in H. destruct H as [s2 H].
    apply seq_in in H. destruct H as [s3 H].
    apply seq_in in H. destruct H as [s4 H].
    now apply id_group_in in H.
  - apply url_head_in in H. destruct H as [s1 H].
    apply seq_in in H. destruct H as [s2 H]. now apply id_group_in in H.
  - apply url_head_in in H. destruct H as [s1 H].
    apply seq_in in H. destruct H as [s2 H]. now apply id_group_in in H.
  - apply url_head_in in H. destruct H as [s1 H].
    apply seq_in in H. destruct H as [s2 H]. now apply id_group_in in H.
  - apply seq_in in H. destruct H as [s1 H].
    rewrite run_seq, in_flat_map in H. destruct H as [y [Hy Hx]].
    apply id_group_in in Hy.
    assert (x = y).
    { simpl in Hx. destruct (YouTubeParser.rest y) as [|c [|c' s']].
      - destruct Hx as [Hx|[]]. now subst.
      - destruct (Ascii.eqb c YouTubeParser.newline); [|destruct Hx].
        destruct Hx as [Hx|[]]. now subst.
      - destruct Hx. }
    now subst y.
Qed.

Lemma first_match_video_id (ps : Dict.t YouTubeParser.regex) (s v : string) :
  (forall name r, In (name, r) ps -> In (name, r) YouTubeParser.PATTERNS) ->
  YouTubeParser.first_match ps s = Some v ->
  is_video_id v = true.
Proof.
  induction ps as [|[name r] ps IH]; intros Sub; simpl; [discriminate|].
  destruct (YouTubeParser.re_search r s) as [m|] eqn:E.
  - intros G. unfold YouTubeParser.re_search in E.
    apply search_from_in in E. destruct E as [st I].
    destruct (patterns_capture_video_ids name r st m (Sub _ _ (or_introl eq_refl)) I)
      as [v' [G' V]].
    congruence.
  - apply IH. intros n r' I. apply Sub. now right.
Qed.

(** X22: whatever the text, what [extract_video_id] returns is [None] or a
    string of exactly eleven characters among letters, digits, [_] and [-];
    such a result is accepted by [is_valid_video_id], and [extract_video_id]
    returns it unchanged when applied to it. *)
Theorem extract_video_id_returns_an_id (s v : string) :
  YouTubeParser.extract_video_id s = Some v ->
  is_video_id v = true /\
  String.length v = 11 /\
  YouTubeParser.is_valid_video_id v = true /\
  YouTubeParser.extract_video_id v = Some v.
Proof.
  unfold YouTubeParser.extract_video_id at 1.
  destruct (negb (str_truthy s)); [discriminate|].
  intros H. apply first_match_video_id in H; [|auto].
  split; [exact H|]. split.
  - unfold is_video_id in H. apply andb_true_iff in H.
    now apply Nat.eqb_eq.
  - split; [now apply video_id_is_valid | now apply extract_bare_id].
Qed.

Lemma extract_video_id_returns_an_id_witness :
  is_video_id "dQw4w9WgXcQ" = true /\
  YouTubeParser.extract_video_id "dQw4w9WgXcQ" = Some "dQw4w9WgXcQ".
Proof.
  destruct (extract_video_id_returns_an_id
              "  youtube.com/watch?list=PL1&v=dQw4w9WgXcQ&t=10s" "dQw4w9WgXcQ"
              eq_refl) as (H1 & _ & _ & H4).
  split; [exact H1 | exact H4].
Defined.

(* ------------------------------------------------------------------ *)
(** ** The parser: thumbnails and parse_url *)

Lemma get_map_values {A B : Type} (f : A -> B) (k : string) (d : Dict.t A) :
  Dict.get k (map (fun item => (fst item, f (snd item))) d)
  = option_map f (Dict.get k d).
Proof.
  induction d as [|[k' a] d IH]; simpl; [reflexivity|].
  now destruct (String.eqb k k').
Qed.

Lemma thumbnail_templates (q template v : string) :
  Dict.get q YouTubeParser.THUMBNAIL_URLS = Some template ->
  YouTubeParser.format template v
  = "https://img.youtube.com/vi/" ++ v ++ "/" ++ q ++ ".jpg".
Proof.
  unfold YouTubeParser.THUMBNAIL_URLS. cbn [Dict.get].
  destruct (String.eqb q "default") eqn:E1.
  { apply String.eqb_eq in E1. intros H. inversion H. subst. reflexivity. }
  destruct (String.eqb q "mqdefault") eqn:E2.
  { apply String.eqb_eq in E2. intros H. inversion H. subst. reflexivity. }
  destruct (String.eqb q "hqdefault") eqn:E3.
  { apply String.eqb_eq in E3. intros H. inversion H. subst. reflexivity. }
  destruct (String.eqb q "sddefault") eqn:E4.
  { apply String.eqb_eq in E4. intros H. inversion H. subst. reflexivity. }
  destruct (String.eqb q "maxresdefault") eqn:E5.
  { apply String.eqb_eq in E5. intros H. inversion H. subst. reflexivity. }
  discriminate.
Qed.

(** X23: for a video id that [is_valid_video_id] accepts,
    [generate_thumbnail_url] returns
    [https://img.youtube.com/vi/<id>/<quality>.jpg] for each of the five
    qualities of [THUMBNAIL_URLS] and [None] for any other quality, and
    [get_all_thumbnail_urls] returns a dictionary with the five qualities as
    keys, in the order of [THUMBNAIL_URLS], that agrees with
    [generate_thumbnail_url] on every quality.  For an id that is refused,
    [generate_url], [generate_thumbnail_url] and [get_all_thumbnail_urls]
    all return [None]. *)
Theorem thumbnail_urls_spec (v q t : string) :
  (YouTubeParser.is_valid_video_id v = true ->
   YouTubeParser.generate_thumbnail_url v q
   = (if Dict.contains q YouTubeParser.THUMBNAIL_URLS
      then Some ("https://img.youtube.com/vi/" ++ v ++ "/" ++ q ++ ".jpg")
      else None) /\
   exists d,
     YouTubeParser.get_all_thumbnail_urls v = Some d /\
     Dict.keys d
     = ["default"; "mqdefault"; "hqdefault"; "sddefault"; "maxresdefault"] /\
     Dict.get q d = YouTubeParser.generate_thumbnail_url v q)
  /\
  (YouTubeParser.is_valid_video_id v = false ->
   YouTubeParser.generate_url v t = None /\
   YouTubeParser.generate_thumbnail_url v q = None /\
   YouTubeParser.get_all_thumbnail_urls v = None).
Proof.
  split.
  - intros V.
    assert (G : YouTubeParser.generate_thumbnail_url v q
                = (if Dict.contains q YouTubeParser.THUMBNAIL_URLS
                   then Some ("https://img.youtube.com/vi/" ++ v ++ "/" ++ q
                                ++ ".jpg")
                   else None)).
    { unfold YouTubeParser.generate_thumbnail_url, Dict.contains. rewrite V.
      cbv iota. simpl negb. cbv iota.
      destruct (Dict.get q YouTubeParser.THUMBNAIL_URLS) as [tpl|] eqn:E;
        [|reflexivity].
      now rewrite (thumbnail_templates q tpl v E). }
    split; [exact G|].
    unfold YouTubeParser.get_all_thumbnail_urls. rewrite V. simpl negb. cbv iota.
    eexists. split; [reflexivity|]. split; [reflexivity|].
    pose proof (get_map_values (fun tpl => YouTubeParser.format tpl v) q
                  YouTubeParser.THUMBNAIL_URLS) as M.
    cbv beta in M. rewrite M.
    unfold YouTubeParser.generate_thumbnail_url. rewrite V. simpl negb. cbv iota.
    now destruct (Dict.get q YouTubeParser.THUMBNAIL_URLS).
  - intros V. unfold YouTubeParser.generate_url,
      YouTubeParser.generate_thumbnail_url, YouTubeParser.get_all_thumbnail_urls.
    rewrite V. auto.
Qed.

Lemma thumbnail_urls_spec_witness :
  YouTubeParser.generate_thumbnail_url "dQw4w9WgXcQ" "maxresdefault"
  = Some "https://img.youtube.com/vi/dQw4w9WgXcQ/maxresdefault.jpg" /\
  YouTubeParser.generate_thumbnail_url "dQw4w9WgXcQ" "huge" = None /\
  YouTubeParser.get_all_thumbnail_urls "invalid" = None.
Proof.
  split; [|split].
  - apply (proj1 (proj1 (thumbnail_urls_spec "dQw4w9WgXcQ" "maxresdefault" "video")
                    eq_refl)).
  - apply (proj1 (proj1 (thumbnail_urls_spec "dQw4w9WgXcQ" "huge" "video")
                    eq_refl)).
  - apply (proj2 (thumbnail_urls_spec "invalid" "hqdefault" "video") eq_refl).
Defined.

Lemma parse_url_of_extract (s s' : string) :
  YouTubeParser.extract_video_id s = YouTubeParser.extract_video_id s' ->
  YouTubeParser.parse_url s = YouTubeParser.parse_url s'.
Proof. unfold YouTubeParser.parse_url. intros E. now rewrite E. Qed.

Lemma extract_video_id_video_id (s v : string) :
  YouTubeParser.extract_video_id s = Some v -> is_video_id v = true.
Proof.
  unfold YouTubeParser.extract_video_id.
  destruct (negb (str_truthy s)); [discriminate|].
  intros H. apply first_match_video_id in H; auto.
Qed.

(** X24: [parse_url] returns [None] exactly when [extract_video_id] does.
    Otherwise, with [v] the id that is extracted, it returns the dictionary
    whose seven entries are all filled in: the id, the four URLs built on
    it, the [hqdefault] thumbnail and the dictionary of the five thumbnails;
    and parsing any of the four URLs of that dictionary gives the same
    dictionary again. *)
Theorem parse_url_spec (s : string) :
  (YouTubeParser.extract_video_id s = None ->
   YouTubeParser.parse_url s = None)
  /\
  (forall v,
     YouTubeParser.extract_video_id s = Some v ->
     YouTubeParser.parse_url s
     = Some
         [ ("video_id", YouTubeParser.VStr v);
           ("video_url",
            YouTubeParser.VStr ("https://www.youtube.com/watch?v=" ++ v));
           ("short_url", YouTubeParser.VStr ("https://youtu.be/" ++ v));
           ("embed_url",
            YouTubeParser.VStr ("https://www.youtube.com/embed/" ++ v));
           ("nocookie_url",
            YouTubeParser.VStr
              ("https://www.youtube-nocookie.com/embed/" ++ v));
           ("thumbnail_url",
            YouTubeParser.VStr
              ("https://img.youtube.com/vi/" ++ v ++ "/hqdefault.jpg"));
           ("all_thumbnails",
            YouTubeParser.VDict
              [ ("default",
                 "https://img.youtube.com/vi/" ++ v ++ "/default.jpg");
                ("mqdefault",
                 "https://img.youtube.com/vi/" ++ v ++ "/mqdefault.jpg");
                ("hqdefault",
                 "https://img.youtube.com/vi/" ++ v ++ "/hqdefault.jpg");
                ("sddefault",
                 "https://img.youtube.com/vi/" ++ v ++ "/sddefault.jpg");
                ("maxresdefault",
                 "https://img.youtube.com/vi/" ++ v ++ "/maxresdefault.jpg") ]) ]
     /\
     (forall t base,
        Dict.get t YouTubeParser.BASE_URLS = Some base ->
        YouTubeParser.parse_url (base ++ v) = YouTubeParser.parse_url s)).
Proof.
  split.
  - intros E. unfold YouTubeParser.parse_url. now rewrite E.
  - intros v E.
    pose proof (extract_video_id_video_id s v E) as I.
    pose proof (video_id_is_valid v I) as V.
    split.
    + unfold YouTubeParser.parse_url. rewrite E.
      destruct (video_id_rstrip v I) as [_ N].
      destruct v as [|c v0] eqn:Ev; [contradiction|].
      change (negb (str_truthy (String c v0))) with false. cbv iota.
      rewrite <- Ev in *.
      unfold YouTubeParser.generate_url, YouTubeParser.generate_thumbnail_url,
        YouTubeParser.get_all_thumbnail_urls.
      rewrite V. reflexivity.
    + intros t base B. apply parse_url_of_extract. rewrite E.
      destruct (base_urls_cases t base B)
        as [[_ Eb]|[[_ Eb]|[[_ Eb]|[_ Eb]]]]; subst base.
      * now apply extract_video_url.
      * now apply extract_short_url.
      * now apply extract_embed_url.
      * now apply extract_nocookie_url.
Qed.

Lemma parse_url_spec_witness :
  YouTubeParser.parse_url "not a video" = None /\
  YouTubeParser.parse_url "https://youtu.be/dQw4w9WgXcQ"
  = YouTubeParser.parse_url "https://www.youtube.com/watch?v=dQw4w9WgXcQ&t=10s".
Proof.
  split.
  - apply (proj1 (parse_url_spec "not a video")). reflexivity.
  - apply (proj2 (proj2 (parse_url_spec
                           "https://www.youtube.com/watch?v=dQw4w9WgXcQ&t=10s")
                    "dQw4w9WgXcQ" eq_refl)
             "short" "https://youtu.be/").
    reflexivity.
Defined.

(* ------------------------------------------------------------------ *)
(** ** The parser: white space *)

Lemma lstrip_spaces (ws x : string) :
  all_space ws = true ->
  YouTubeParser.lstrip (ws ++ x) = YouTubeParser.lstrip x.
Proof.
  unfold all_space. induction ws as [|c ws IH]; simpl; [reflexivity|].
  intros H. apply andb_true_iff in H. destruct H as [H1 H2].
  rewrite H1. now apply IH.
Qed.

Lemma rstrip_all_space (ws : string) :
  all_space ws = true -> YouTubeParser.rstrip ws = "".
Proof.
  unfold all_space. induction ws as [|c ws IH]; simpl; [reflexivity|].
  intros H. apply andb_true_iff in H. destruct H as [H1 H2].
  now rewrite (IH H2), H1.
Qed.

Lemma rstrip_spaces (x ws : string) :
  all_space ws = true ->
  YouTubeParser.rstrip (x ++ ws) = YouTubeParser.rstrip x.
Proof.
  intros H. induction x as [|c x IH]; simpl.
  - now apply rstrip_all_space.
  - now rewrite IH.
Qed.

Lemma lstrip_app (s t : string) :
  YouTubeParser.lstrip (s ++ t)
  = if all_space s then YouTubeParser.lstrip t
    else YouTubeParser.lstrip s ++ t.
Proof.
  unfold all_space. induction s as [|c s IH]; simpl; [reflexivity|].
  destruct (YouTubeParser.isspace c); simpl; [exact IH | reflexivity].
Qed.

Lemma lstrip_all_space (s : string) :
  all_space s = true -> YouTubeParser.lstrip s = "".
Proof.
  unfold all_space. induction s as [|c s IH]; simpl; [reflexivity|].
  intros H. apply andb_true_iff in H. destruct H as [H1 H2].
  rewrite H1. now apply IH.
Qed.

Lemma strip_padding (ws s ws' : string) :
  all_space ws = true -> all_space ws' = true ->
  YouTubeParser.strip (ws ++ s ++ ws') = YouTubeParser.strip s.
Proof.
  intros W W'. unfold YouTubeParser.strip.
  rewrite (lstrip_spaces ws _ W), lstrip_app.
  destruct (all_space s) eqn:A.
  - now rewrite (lstrip_all_space ws' W'), (lstrip_all_space s A).
  - now apply rstrip_spaces.
Qed.

(** X25: [extract_video_id] and [parse_url] ignore white space around their
    argument: padding a text with white space on either side changes neither
    result.  [is_valid_video_id] does not: it refuses every text that starts
    with a white space character. *)
Theorem white_space_around_the_url (ws s ws' : string) :
  all_space ws = true -> all_space ws' = true ->
  YouTubeParser.extract_video_id (ws ++ s ++ ws')
  = YouTubeParser.extract_video_id s /\
  YouTubeParser.parse_url (ws ++ s ++ ws') = YouTubeParser.parse_url s /\
  (ws <> "" -> YouTubeParser.is_valid_video_id (ws ++ s) = false).
Proof.
  intros W W'.
  assert (E : YouTubeParser.extract_video_id (ws ++ s ++ ws')
              = YouTubeParser.extract_video_id s).
  { unfold YouTubeParser.extract_video_id.
    rewrite (strip_padding ws s ws' W W').
    destruct s as [|c s].
    - simpl (negb (str_truthy "")). cbv iota.
      destruct (negb (str_truthy (ws ++ "" ++ ws'))); reflexivity.
    - replace (negb (str_truthy (ws ++ String c s ++ ws'))) with false;
        [reflexivity|].
      destruct ws; reflexivity. }
  split; [exact E|]. split; [now apply parse_url_of_extract|].
  intros N. rewrite is_valid_video_id_take.
  destruct ws as [|c ws]; [contradiction|].
  unfold all_space in W. simpl in W. apply andb_true_iff in W.
  destruct W as [W1 _]. simpl.
  destruct (YouTubeParser.id_char c) eqn:I; [|reflexivity].
  apply id_char_facts in I. destruct I as [I _]. congruence.
Qed.

Lemma white_space_around_the_url_witness :
  YouTubeParser.extract_video_id
    ("  " ++ "https://youtu.be/dQw4w9WgXcQ" ++ String YouTubeParser.newline "")
  = Some "dQw4w9WgXcQ" /\
  YouTubeParser.is_valid_video_id (" " ++ "dQw4w9WgXcQ") = false.
Proof.
  destruct (white_space_around_the_url "  " "https://youtu.be/dQw4w9WgXcQ"
              (String YouTubeParser.newline "") eq_refl eq_refl)
    as (H1 & _ & _).
  destruct (white_space_around_the_url " " "dQw4w9WgXcQ" "" eq_refl eq_refl)
    as (_ & _ & H3).
  split; [rewrite H1; reflexivity | apply H3; discriminate].
Defined.
